(** * The automation task controller of the crypto dashboard

    A shallow embedding of [backend/automation_controller.py]: the task
    table of [AutomationController], the methods [run_script],
    [task_worker], [start_task], [stop_task], [run_once] and [get_status],
    and the threads the controller spawns.

    Conventions of the embedding:
    - a [datetime] is the number of seconds it stands for, a [Z]; the
      ISO strings the code stores compare like the datetimes they print;
    - a Python [str] is a [string], each character standing for a code
      point below 256; [s[:200]] is [slice_to 200 s];
    - the three values the code writes to [task["status"]] are the
      constructors of [Status];
    - what the outside world decides (the clock, how a child process ends,
      whether a thread can be started) is an argument of the operation;
    - [self.tasks] is a finite map from task ids to entries; the methods
      run in a monad of state and exceptions, so that what a method
      wrote before it raised stays written;
    - a worker thread is a position in [task_worker]; the system of
      caller and threads moves by the steps of [step], which are made
      of the same pieces as the methods;
    - [print] calls write to the console only and are left out, and so
      is the command line;
    - the endpoints of [backend/api.py] that call the controller run
      in the same state, with [HTTPException] added to what they can
      raise. *)

From Stdlib Require Import Ascii.
From stdpp Require Import gmap strings list fin_maps pretty.

Local Open Scope Z_scope.

(** ** Texts *)

(** [s[:n]] *)
Fixpoint slice_to (n : nat) (s : string) : string :=
  match n, s with
  | S n', String a s' => String a (slice_to n' s')
  | _, _ => EmptyString
  end.

(** Truth value of a [str]: non-empty. *)
Definition truthy (s : string) : bool :=
  match s with
  | EmptyString => false
  | String _ _ => true
  end.

(** ** The task table *)

Inductive Status := stopped | running | error.

#[global] Instance Status_eq_dec : EqDecision Status.
Proof. solve_decision. Defined.

(** Position of a worker thread in [task_worker]. *)
Inductive PC :=
| AtLoop                (* at the test of [while task["status"] == "running"] *)
| Entering              (* in [run_script], before the status is marked *)
| InFlight              (* [subprocess.run] is executing the script *)
| AtFinally             (* the outcome is recorded, [finally] is next *)
| Sleeping (ticks : nat) (* in [for _ in range(interval)], [ticks] rounds left *)
| Exited.               (* [task_worker] has returned *)

#[global] Instance PC_eq_dec : EqDecision PC.
Proof. solve_decision. Defined.

(** A [threading.Thread] running [task_worker(task_id)]. A thread handle
    is the position of the thread in the list of all threads started. *)
Record Worker := mkWorker { w_task : string; w_pc : PC }.

(** One entry of [self.tasks]. *)
Record Task := mkTask {
  name : string;
  script : string;
  interval : Z;
  status : Status;
  last_run : option Z;
  next_run : option Z;
  success_count : Z;
  error_count : Z;
  last_error : option string;
  process : option nat;
  thread : option nat
}.

Definition set_status (v : Status) (t : Task) : Task :=
  mkTask (name t) (script t) (interval t) v (last_run t) (next_run t)
         (success_count t) (error_count t) (last_error t) (process t) (thread t).
Definition set_last_run (v : option Z) (t : Task) : Task :=
  mkTask (name t) (script t) (interval t) (status t) v (next_run t)
         (success_count t) (error_count t) (last_error t) (process t) (thread t).
Definition set_next_run (v : option Z) (t : Task) : Task :=
  mkTask (name t) (script t) (interval t) (status t) (last_run t) v
         (success_count t) (error_count t) (last_error t) (process t) (thread t).
Definition set_success_count (v : Z) (t : Task) : Task :=
  mkTask (name t) (script t) (interval t) (status t) (last_run t) (next_run t)
         v (error_count t) (last_error t) (process t) (thread t).
Definition set_error_count (v : Z) (t : Task) : Task :=
  mkTask (name t) (script t) (interval t) (status t) (last_run t) (next_run t)
         (success_count t) v (last_error t) (process t) (thread t).
Definition set_last_error (v : option string) (t : Task) : Task :=
  mkTask (name t) (script t) (interval t) (status t) (last_run t) (next_run t)
         (success_count t) (error_count t) v (process t) (thread t).
Definition set_thread (v : option nat) (t : Task) : Task :=
  mkTask (name t) (script t) (interval t) (status t) (last_run t) (next_run t)
         (success_count t) (error_count t) (last_error t) (process t) v.

(** The controller object together with the threads of the process. *)
Record State := mkState {
  tasks : gmap string Task;
  is_running : bool;
  start_time : Z;
  threads : list Worker
}.

Definition set_tasks (m : gmap string Task) (s : State) : State :=
  mkState m (is_running s) (start_time s) (threads s).
Definition set_threads (l : list Worker) (s : State) : State :=
  mkState (tasks s) (is_running s) (start_time s) l.

(** ** Exceptions and the monad of the methods *)

(** [subprocess.TimeoutExpired] and every other [Exception]; [msg] is
    what [str(e)] returns. *)
Inductive Exn :=
| TimeoutExpired (msg : string)
| Exception (msg : string).

Definition str (e : Exn) : string :=
  match e with
  | TimeoutExpired msg => msg
  | Exception msg => msg
  end.

(** [repr(s)] for a [str] [s], as CPython's [unicode_repr] computes it
    on code points below 256. The text is put between single quotes,
    or between double quotes when it holds a single quote and no double
    quote. The quote in use and the backslash are escaped with a
    backslash; tab, line feed and carriage return are written [\t],
    [\n] and [\r]; every other character that is not printable (the
    control characters below 32 and from 127 to 159, the no-break space
    160 and the soft hyphen 173) is written [\x] and two lower-case
    hexadecimal digits. *)
Definition backslash : ascii := ascii_of_nat 92.
Definition single_quote : ascii := ascii_of_nat 39.
Definition double_quote : ascii := ascii_of_nat 34.

Definition hex_digit (n : nat) : ascii :=
  match String.get n "0123456789abcdef" with
  | Some c => c
  | None => "f"%char
  end.

Definition isprintable (c : ascii) : bool :=
  let n := nat_of_ascii c in
  (Nat.leb 32 n && Nat.leb n 126)
  || (Nat.leb 161 n && negb (Nat.eqb n 173)).

Fixpoint has_char (c : ascii) (s : string) : bool :=
  match s with
  | EmptyString => false
  | String c' s' => Ascii.eqb c' c || has_char c s'
  end.

Definition repr_char (quote c : ascii) : string :=
  let n := nat_of_ascii c in
  if Ascii.eqb c quote || Ascii.eqb c backslash then
    String backslash (String c EmptyString)
  else if Nat.eqb n 9 then String backslash "t"
  else if Nat.eqb n 10 then String backslash "n"
  else if Nat.eqb n 13 then String backslash "r"
  else if isprintable c then String c EmptyString
  else
    String backslash
      (String "x"
         (String (hex_digit (Nat.div n 16))
            (String (hex_digit (Nat.modulo n 16)) EmptyString))).

Fixpoint repr_body (quote : ascii) (s : string) : string :=
  match s with
  | EmptyString => EmptyString
  | String c s' => repr_char quote c +:+ repr_body quote s'
  end.

Definition repr (s : string) : string :=
  let quote :=
    if has_char single_quote s && negb (has_char double_quote s)
    then double_quote else single_quote in
  String quote (repr_body quote s +:+ String quote EmptyString).

(** [KeyError(key)] for a [str] [key]: [str(e)] is [repr(key)]. *)
Definition KeyError (key : string) : Exn := Exception (repr key).

Inductive Res (A : Type) :=
| Ret (a : A)
| Raise (e : Exn).
Arguments Ret {A} a.
Arguments Raise {A} e.

(** A method runs on the state and either returns or raises; what it
    wrote before raising stays written. *)
Definition M (A : Type) : Type := State → State * Res A.

#[global] Instance M_ret : MRet M := λ A a s, (s, Ret a).
#[global] Instance M_bind : MBind M := λ A B k m s,
  match m s with
  | (s', Ret a) => k a s'
  | (s', Raise e) => (s', Raise e)
  end.

Definition raise {A} (e : Exn) : M A := λ s, (s, Raise e).

(** [try: body  except Exception as e: handler e] *)
Definition try_except {A} (body : M A) (handler : Exn → M A) : M A := λ s,
  match body s with
  | (s', Ret a) => (s', Ret a)
  | (s', Raise e) => handler e s'
  end.

(** [try: body  finally: cleanup] *)
Definition try_finally {A} (body : M A) (cleanup : M unit) : M A := λ s,
  match body s with
  | (s', r) =>
      match cleanup s' with
      | (s'', Ret _) => (s'', r)
      | (s'', Raise e) => (s'', Raise e)
      end
  end.

(** [task_id in self.tasks] *)
Definition contains (task_id : string) : M bool := λ s,
  (s, Ret (bool_decide (is_Some (tasks s !! task_id)))).

(** [self.tasks[task_id]] *)
Definition get_task (task_id : string) : M Task := λ s,
  match tasks s !! task_id with
  | Some t => (s, Ret t)
  | None => (s, Raise (KeyError task_id))
  end.

(** [self.tasks[task_id][field] = v], [f] being the setter of [field] *)
Definition modify_task (task_id : string) (f : Task → Task) : M unit := λ s,
  match tasks s !! task_id with
  | Some t => (set_tasks (<[task_id := f t]> (tasks s)) s, Ret tt)
  | None => (s, Raise (KeyError task_id))
  end.

(** ** Child processes *)

(** The [CompletedProcess] of [subprocess.run(..., capture_output=True,
    text=True)]. *)
Record CompletedProcess := mkCompleted {
  returncode : Z;
  stdout : string;
  stderr : string
}.

(** How a call of [subprocess.run] ends. *)
Inductive RunOutcome :=
| Completes (p : CompletedProcess)
| Raises (e : Exn).

Definition subprocess_run (o : RunOutcome) : M CompletedProcess :=
  match o with
  | Completes p => mret p
  | Raises e => raise e
  end.

(** ** [run_script] *)

Definition timed_out_message : string := "Script timed out after 10 minutes".

(** Lines 74-75. *)
Definition run_script_mark (task_id : string) (now : Z) : M unit :=
  modify_task task_id (set_last_run (Some now));;
  modify_task task_id (set_status running).

(** Lines 78-95, and again 337-354 in [run_once]. *)
Definition record_result (task_id : string) (o : RunOutcome) : M bool :=
  result ← subprocess_run o;
  if bool_decide (returncode result = 0) then
    t ← get_task task_id;
    modify_task task_id (set_success_count (success_count t + 1));;
    modify_task task_id (set_last_error None);;
    mret true
  else
    t ← get_task task_id;
    modify_task task_id (set_error_count (error_count t + 1));;
    modify_task task_id
      (set_last_error
         (Some (if truthy (stderr result) then slice_to 200 (stderr result)
                else "Unknown error")));;
    mret false.

(** Lines 97-106, and again 356-365 in [run_once]. *)
Definition record_exception (task_id : string) (e : Exn) : M bool :=
  match e with
  | TimeoutExpired _ =>
      t ← get_task task_id;
      modify_task task_id (set_error_count (error_count t + 1));;
      modify_task task_id (set_last_error (Some timed_out_message));;
      mret false
  | Exception _ =>
      t ← get_task task_id;
      modify_task task_id (set_error_count (error_count t + 1));;
      modify_task task_id (set_last_error (Some (slice_to 200 (str e))));;
      mret false
  end.

(** Lines 107-120. *)
Definition run_script_finally (task_id : string) (now : Z) : M unit :=
  known ← contains task_id;
  if known : bool then
    t ← get_task task_id;
    (if decide (status t = running) then mret tt
     else modify_task task_id (set_status stopped));;
    t ← get_task task_id;
    modify_task task_id (set_next_run (Some (now + interval t)))
  else mret tt.

(** [run_script(script_name, task_id)]: [now] is the clock at line 74,
    [o] the end of the child process, [now'] the clock at line 120. *)
Definition run_script (script_name task_id : string)
    (now : Z) (o : RunOutcome) (now' : Z) : M bool :=
  try_finally
    (try_except
       (run_script_mark task_id now;;
        record_result task_id o)
       (record_exception task_id))
    (run_script_finally task_id now').

(** ** [start_task], [stop_task], [run_once] *)

(** [thread = threading.Thread(target=self.task_worker, args=(task_id,));
    thread.daemon = True; thread.start()]. [spawn] is [Some msg] when
    [start()] raises an exception with text [msg]; otherwise the new
    thread is appended to the threads of the process and its handle is
    returned. *)
Definition thread_start (task_id : string) (spawn : option string) : M nat :=
  match spawn with
  | Some msg => raise (Exception msg)
  | None => λ s,
      (set_threads (threads s ++ [mkWorker task_id AtLoop]) s,
       Ret (length (threads s)))
  end.

(** [start_task(task_id)]; [now] is the clock at line 158. *)
Definition start_task (task_id : string) (now : Z) (spawn : option string)
    : M bool :=
  known ← contains task_id;
  if negb known then mret false
  else
    task ← get_task task_id;
    if decide (status task = running) then mret true
    else
      try_except
        (modify_task task_id (set_status running);;
         modify_task task_id (set_next_run (Some (now + interval task)));;
         th ← thread_start task_id spawn;
         modify_task task_id (set_thread (Some th));;
         mret true)
        (λ e,
           modify_task task_id (set_status error);;
           modify_task task_id (set_last_error (Some (str e)));;
           mret false).

(** Whether thread [h] is still inside [task_worker]. *)
Definition alive (h : nat) (s : State) : bool :=
  match threads s !! h with
  | Some w => bool_decide (w_pc w ≠ Exited)
  | None => false
  end.

(** [thread.is_alive()] *)
Definition is_alive (h : nat) : M bool := λ s, (s, Ret (alive h s)).

(** [thread.join(timeout=5)]: the caller waits until the thread has
    exited or five seconds have passed. Waiting writes nothing; what the
    other threads do in the meantime is the matter of the interleaving
    semantics below. *)
Definition join (h : nat) : M unit := mret tt.

(** Lines 184-185 of [stop_task]. *)
Definition stop_task_signal (task_id : string) : M unit :=
  modify_task task_id (set_status stopped);;
  modify_task task_id (set_next_run None).

(** Lines 188-189. *)
Definition stop_task_join (task_id : string) : M unit :=
  task ← get_task task_id;
  match thread task with
  | Some h =>
      live ← is_alive h;
      if live : bool then join h else mret tt
  | None => mret tt
  end.

(** Line 191. *)
Definition stop_task_clear (task_id : string) : M unit :=
  modify_task task_id (set_thread None).

(** [stop_task(task_id)] *)
Definition stop_task (task_id : string) : M bool :=
  known ← contains task_id;
  if negb known then mret false
  else
    try_except
      (stop_task_signal task_id;;
       stop_task_join task_id;;
       stop_task_clear task_id;;
       mret true)
      (λ e, mret false).

(** Line 334 of [run_once]. *)
Definition run_once_mark (task_id : string) (now : Z) : M unit :=
  modify_task task_id (set_last_run (Some now)).

(** Line 368. *)
Definition run_once_restore (task_id : string) (original_status : Status)
    : M unit :=
  modify_task task_id (set_status original_status).

(** [run_once(task_id)]; [now] is the clock at line 334 and [o] the end
    of the child process. *)
Definition run_once (task_id : string) (now : Z) (o : RunOutcome) : M bool :=
  known ← contains task_id;
  if negb known then mret false
  else
    task ← get_task task_id;
    let original_status := status task in
    try_finally
      (try_except
         (run_once_mark task_id now;;
          record_result task_id o)
         (record_exception task_id))
      (run_once_restore task_id original_status).


(** ** [task_worker] *)

(** Lines 138-142: the handler of the worker loop for an exception [e]
    that has left the [try] block. *)
Definition task_worker_except (task_id : string) (e : Exn) : M unit :=
  modify_task task_id (set_status error);;
  modify_task task_id (set_last_error (Some (str e))).

(** ** [__init__] *)

Definition new_task (name script : string) (interval : Z) : Task :=
  mkTask name script interval stopped None None 0 0 None None None.

(** The controller as constructed at time [now], in a process that has
    started no thread yet. *)
Definition init (now : Z) : State :=
  mkState
    (<["enhanced_data_collection" :=
         new_task "Enhanced Data Collection" "enhanced_data_collector.py" 300]>
       (<["news_aggregation" :=
            new_task "News Aggregation" "fetch_news.py" 1800]>
          (<["market_analysis" :=
               new_task "Market Analysis" "advanced_analysis.py" 3600]> ∅)))
    false now [].

(** ** [get_status] *)

(** [c.isspace()] for an ASCII character. *)
Definition is_space (c : ascii) : bool :=
  let n := nat_of_ascii c in
  (Nat.leb 9 n && Nat.leb n 13) || (Nat.leb 28 n && Nat.leb n 32).

(** [s.lstrip()], [s.rstrip()] and [s.strip()] *)
Fixpoint lstrip (s : string) : string :=
  match s with
  | String c s' => if is_space c then lstrip s' else s
  | EmptyString => EmptyString
  end.

Fixpoint rstrip (s : string) : string :=
  match s with
  | String c s' =>
      match rstrip s' with
      | EmptyString => if is_space c then EmptyString else String c EmptyString
      | r => String c r
      end
  | EmptyString => EmptyString
  end.

Definition strip (s : string) : string := rstrip (lstrip s).

(** [s.split(sep)] for a separator of one character. *)
Fixpoint split (sep : ascii) (s : string) : list string :=
  match s with
  | EmptyString => [EmptyString]
  | String c s' =>
      if Ascii.eqb c sep then EmptyString :: split sep s'
      else
        match split sep s' with
        | x :: xs => String c x :: xs
        | [] => [String c EmptyString]
        end
  end.

(** One row of ["tasks"] in the dictionary [get_status] returns. The
    [view_] fields carry the keys [status], [last_run], [next_run],
    [success_count], [error_count] and [last_error]. *)
Record TaskView := mkTaskView {
  task_name : string;
  display_name : string;
  view_status : Status;
  view_last_run : option Z;
  view_next_run : option Z;
  view_success_count : Z;
  view_error_count : Z;
  view_last_error : option string;
  interval_minutes : Z
}.

(** ["system_health"]; [uptime] holds the hours and minutes that the
    code prints as ["{hours}h {minutes}m"]. *)
Record SystemHealth := mkSystemHealth {
  database_status : string;
  api_status : string;
  scheduler_status : string;
  total_records : Z;
  latest_update : Z;
  uptime : Z * Z
}.

(** ["data_stats"] *)
Record DataStats := mkDataStats {
  total_price_records : Z;
  total_news_articles : Z;
  coins_tracked : Z;
  last_data_update : Z;
  update_frequency : string
}.

Record StatusView := mkStatusView {
  view_tasks : list TaskView;
  system_health : SystemHealth;
  data_stats : DataStats
}.

(** Reading [self]. *)
Definition reads {A} (f : State → A) : M A := λ s, (s, Ret (f s)).

(** [self.tasks.items()]. The dictionary lists its entries in the order
    of insertion, the map in the order of its keys; nothing below
    depends on the order. *)
Definition items (s : State) : list (string * Task) := map_to_list (tasks s).

(** Lines 276-277. *)
Definition running_tasks (s : State) : list Task :=
  filter (λ t, status t = running) (items s).*2.

(** Lines 280-284. *)
Definition latest_run (s : State) : option Z :=
  foldl
    (λ latest_update t,
       match last_run t with
       | Some r =>
           match latest_update with
           | None => Some r
           | Some l => if bool_decide (l < r) then Some r else Some l
           end
       | None => latest_update
       end)
    None (items s).*2.

(** Lines 290-303. *)
Definition task_view (task_id : string) (task_data : Task) : TaskView :=
  mkTaskView task_id (name task_data) (status task_data) (last_run task_data)
    (next_run task_data) (success_count task_data) (error_count task_data)
    (last_error task_data) (interval task_data `div` 60).

Section GetStatus.
(** [int(x)] for a [str] [x]: [None] when it raises [ValueError]. *)
Variable int : string → option Z.

Definition to_int (x : string) : M Z :=
  match int x with
  | Some n => mret n
  | None => raise (Exception "invalid literal for int() with base 10")
  end.

(** [int(counts[i]) if len(counts) > i else 0] *)
Definition count_at (counts : list string) (i : nat) : M Z :=
  match counts !! i with
  | Some x => to_int x
  | None => mret 0
  end.

(** Lines 222-267: the three record counts; [q] is the end of the
    child process that queries the database. *)
Definition query_counts (q : RunOutcome) : M (Z * Z * Z) :=
  try_except
    (result ← subprocess_run q;
     if bool_decide (returncode result = 0) then
       let counts := split "," (strip (stdout result)) in
       total_records ← count_at counts 0;
       news_count ← count_at counts 1;
       coins_tracked ← count_at counts 2;
       mret (total_records, news_count, coins_tracked)
     else mret (0, 0, 0))
    (λ e, mret (0, 0, 0)).

(** [get_status()]; [now] is the clock at line 270 and [now'] the
    clock at line 287. *)
Definition get_status (q : RunOutcome) (now now' : Z) : M StatusView :=
  counts ← query_counts q;
  let '(total_records, news_count, coins_tracked) := counts in
  start ← reads start_time;
  let uptime_seconds := now - start in
  let hours := uptime_seconds `div` 3600 in
  let minutes := (uptime_seconds `mod` 3600) `div` 60 in
  running ← reads running_tasks;
  let scheduler_status :=
    match running with [] => "stopped" | _ => "running" end in
  latest ← reads latest_run;
  let latest_update := default now' latest in
  rows ← reads (λ s, (λ kt, task_view kt.1 kt.2) <$> items s);
  mret
    (mkStatusView rows
       (mkSystemHealth
          (if bool_decide (0 < total_records) then "connected"
           else "disconnected")
          "healthy" scheduler_status total_records latest_update
          (hours, minutes))
       (mkDataStats total_records news_count coins_tracked latest_update
          (match running with [] => "Manual" | _ => "5 minutes" end))).
End GetStatus.

(** [int] on decimal literals: an optional sign and one or more ASCII
    digits, with white space around them allowed. *)
Definition digit_of (c : ascii) : option Z :=
  let n := nat_of_ascii c in
  if Nat.leb 48 n && Nat.leb n 57 then Some (Z.of_nat n - 48) else None.

Fixpoint digits_from (acc : Z) (s : string) : option Z :=
  match s with
  | EmptyString => Some acc
  | String c s' =>
      match digit_of c with
      | Some d => digits_from (10 * acc + d) s'
      | None => None
      end
  end.

Definition unsigned_decimal (s : string) : option Z :=
  match s with
  | EmptyString => None
  | _ => digits_from 0 s
  end.

Definition int_decimal (x : string) : option Z :=
  match strip x with
  | String "-" s' => Z.opp <$> unsigned_decimal s'
  | String "+" s' => unsigned_decimal s'
  | s' => unsigned_decimal s'
  end.

(** ** The controller and its worker threads, step by step *)

(** The state a method leaves. *)
Definition exec {A} (m : M A) (s : State) : State := (m s).1.

Definition set_pc (h : nat) (pc : PC) (s : State) : State :=
  set_threads (alter (λ w, mkWorker (w_task w) pc) h (threads s)) s.

(** What a worker thread does next. [Enter], [Cleanup] and [Crash] carry
    the clock they read, [Finish] the end of the child process, [Crash]
    the exception that leaves [run_script]. *)
Inductive Action :=
| LoopTest
| Enter (now : Z)
| Finish (o : RunOutcome)
| Cleanup (now : Z)
| Tick
| Crash (now : Z) (e : Exn).

(** One step of thread [h] in [task_worker]; the thread holds the
    entry of its task from line 124 on:
    - [LoopTest]: line 126, the test of the loop;
    - [Enter]: lines 129 and 71-75, up to the start of the script;
    - [Finish]: lines 78-106, the script ends and the outcome is recorded;
    - [Cleanup]: lines 107-120 and 132-133, the [finally] block, then
      the sleeping loop is entered with [interval] rounds to go;
    - [Tick]: lines 133-136, one round of the sleeping loop;
    - [Crash]: an exception leaves [run_script] after the outcome has
      been recorded (raised by one of its handlers, it passes the
      [finally] block) and is handled at lines 138-142, which ends the
      thread. [run_script] catches what the script raises, so this is
      the only way into that handler. *)
Definition worker_step (h : nat) (a : Action) (s : State) : option State :=
  w ← threads s !! h;
  let task_id := w_task w in
  task ← tasks s !! task_id;
  match w_pc w, a with
  | AtLoop, LoopTest =>
      Some (set_pc h (if decide (status task = running) then Entering
                      else Exited) s)
  | Entering, Enter now =>
      Some (set_pc h InFlight (exec (run_script_mark task_id now) s))
  | InFlight, Finish o =>
      Some (set_pc h AtFinally
              (exec (try_except (record_result task_id o)
                       (record_exception task_id)) s))
  | AtFinally, Cleanup now =>
      let s' := exec (run_script_finally task_id now) s in
      task' ← tasks s' !! task_id;
      Some (set_pc h (Sleeping (Z.to_nat (interval task'))) s')
  | Sleeping (S n), Tick =>
      Some (set_pc h (if decide (status task = running) then Sleeping n
                      else AtLoop) s)
  | Sleeping O, Tick => Some (set_pc h AtLoop s)
  | AtFinally, Crash now e =>
      Some (set_pc h Exited
              (exec (task_worker_except task_id e)
                 (exec (run_script_finally task_id now) s)))
  | _, _ => None
  end.

(** Where the thread that calls the controller is: outside of any
    method, waiting in the [join] of [stop_task], or waiting for the
    script in [run_once] with the status it saved at line 330. *)
Inductive Caller :=
| Idle
| InStop (task_id : string)
| InRunOnce (task_id : string) (original_status : Status).

Record System := mkSystem { state : State; caller : Caller }.

Inductive Event :=
| CallStart (task_id : string) (now : Z) (spawn : option string)
| CallStop (task_id : string)
| JoinReturns
| JoinTimesOut
| CallRunOnce (task_id : string) (now : Z)
| RunOnceReturns (o : RunOutcome)
| Work (h : nat) (a : Action).

(** The task has a thread handle and that thread is alive (line 188). *)
Definition waiting (task_id : string) (s : State) : bool :=
  match tasks s !! task_id with
  | Some task =>
      match thread task with
      | Some h => alive h s
      | None => false
      end
  | None => false
  end.

(** One step of the system:
    - [CallStart]: a whole call of [start_task];
    - [CallStop]: [stop_task] up to line 188; an unregistered id returns
      at line 178;
    - [JoinReturns]: the task has no live thread (any more), line 191
      follows and [stop_task] returns; the caller holds the entry of the
      task from line 180 on, and from line 326 on in [run_once];
    - [JoinTimesOut]: the five seconds of [join] have passed with the
      thread still alive, line 191 follows and [stop_task] returns;
    - [CallRunOnce]: [run_once] up to the start of the script; an
      unregistered id returns at line 324;
    - [RunOnceReturns]: the script of [run_once] ends, lines 345-368;
    - [Work]: a step of a worker thread. *)
Definition step (ev : Event) (sys : System) : option System :=
  let s := state sys in
  match ev, caller sys with
  | CallStart task_id now spawn, Idle =>
      Some (mkSystem (exec (start_task task_id now spawn) s) Idle)
  | CallStop task_id, Idle =>
      match tasks s !! task_id with
      | Some _ => Some (mkSystem (exec (stop_task_signal task_id) s)
                          (InStop task_id))
      | None => Some sys
      end
  | JoinReturns, InStop task_id =>
      _ ← tasks s !! task_id;
      if waiting task_id s then None
      else Some (mkSystem (exec (stop_task_clear task_id) s) Idle)
  | JoinTimesOut, InStop task_id =>
      _ ← tasks s !! task_id;
      if waiting task_id s
      then Some (mkSystem (exec (stop_task_clear task_id) s) Idle)
      else None
  | CallRunOnce task_id now, Idle =>
      match tasks s !! task_id with
      | Some task => Some (mkSystem (exec (run_once_mark task_id now) s)
                             (InRunOnce task_id (status task)))
      | None => Some sys
      end
  | RunOnceReturns o, InRunOnce task_id original_status =>
      _ ← tasks s !! task_id;
      Some (mkSystem
              (exec (try_finally
                       (try_except (record_result task_id o)
                          (record_exception task_id))
                       (run_once_restore task_id original_status)) s)
              Idle)
  | Work h a, c => s' ← worker_step h a s; Some (mkSystem s' c)
  | _, _ => None
  end.

(** A sequence of steps. *)
Fixpoint run (tr : list Event) (sys : System) : option System :=
  match tr with
  | [] => Some sys
  | ev :: tr' => sys' ← step ev sys; run tr' sys'
  end.

(** A controller in which no task has been started, in a process without
    threads, as [__init__] leaves it. *)
Definition fresh (s : State) : Prop :=
  threads s = [] ∧
  ∀ task_id task, tasks s !! task_id = Some task →
    status task = stopped ∧ thread task = None.




Definition is_crash (ev : Event) : bool :=
  match ev with Work _ (Crash _ _) => true | _ => false end.

Definition is_work (ev : Event) : bool :=
  match ev with Work _ _ => true | _ => false end.
(** ** Auxiliary definitions for the proofs *)

(** The state in which the entry of [task_id] is [t] and nothing else
    has changed. *)
Definition put (task_id : string) (t : Task) (s : State) : State :=
  set_tasks (<[task_id := t]> (tasks s)) s.

(** What [record_result] with its two handlers leaves in the entry [t]. *)
Definition recorded (t : Task) (o : RunOutcome) : Task :=
  match o with
  | Completes p =>
      if bool_decide (returncode p = 0) then
        set_last_error None (set_success_count (success_count t + 1) t)
      else
        set_last_error
          (Some (if truthy (stderr p) then slice_to 200 (stderr p)
                 else "Unknown error"))
          (set_error_count (error_count t + 1) t)
  | Raises (TimeoutExpired _) =>
      set_last_error (Some timed_out_message)
        (set_error_count (error_count t + 1) t)
  | Raises (Exception msg) =>
      set_last_error (Some (slice_to 200 msg))
        (set_error_count (error_count t + 1) t)
  end.

(** The value [record_result] with its two handlers returns. *)
Definition succeeded (o : RunOutcome) : bool :=
  match o with
  | Completes p => bool_decide (returncode p = 0)
  | Raises _ => false
  end.

(** The entry [run_script] leaves for a registered task with entry [t]. *)
Definition after_run_script (t : Task) (now : Z) (o : RunOutcome) (now' : Z)
    : Task :=
  set_next_run (Some (now' + interval t))
    (recorded (set_status running (set_last_run (Some now) t)) o).

(** The entry [run_once] leaves for a registered task with entry [t]. *)
Definition after_run_once (t : Task) (now : Z) (o : RunOutcome) : Task :=
  set_status (status t) (recorded (set_last_run (Some now) t) o).

(** [c * n] *)
Fixpoint repeat_char (c : ascii) (n : nat) : string :=
  match n with
  | O => EmptyString
  | S n' => String c (repeat_char c n')
  end.

(** An exception text of 201 characters. *)
Definition long_text : string := repeat_char "x" 201.

(** The controller after a first call [start_task(task_id)] that starts
    a thread. *)
Definition started (task_id : string) : State :=
  exec (start_task task_id 5 None) (init 0).

(** The line feed that ends the output of [print]. *)
Definition newline : string := String (ascii_of_nat 10) EmptyString.

(** [int(counts[i]) if len(counts) > i else 0] as a value: [None] when
    [int] raises. *)
Definition count_value (int : string → option Z) (counts : list string)
    (i : nat) : option Z :=
  match counts !! i with
  | Some x => int x
  | None => Some 0
  end.

(** The three counts [query_counts] returns. *)
Definition counts_of (int : string → option Z) (q : RunOutcome) : Z * Z * Z :=
  match q with
  | Completes p =>
      if bool_decide (returncode p = 0) then
        let counts := split "," (strip (stdout p)) in
        match count_value int counts 0, count_value int counts 1,
              count_value int counts 2 with
        | Some a, Some b, Some c => (a, b, c)
        | _, _, _ => (0, 0, 0)
        end
      else (0, 0, 0)
  | Raises _ => (0, 0, 0)
  end.

(** The output the query script prints at line 241 when it succeeds:
    three integers separated by commas. *)
Definition well_formed (int : string → option Z) (out : string) : bool :=
  match split "," (strip out) with
  | [a; b; c] =>
      bool_decide (is_Some (int a) ∧ is_Some (int b) ∧ is_Some (int c))
  | _ => false
  end.

(** One of the first three fields of the output is present and is not
    an integer. *)
Definition unreadable (int : string → option Z) (out : string) : Prop :=
  ∃ i x, (i < 3)%nat ∧ split "," (strip out) !! i = Some x ∧ int x = None.

(** The database query is rejected by [get_status]: the child process
    raised (a timeout included), exited with an error code, or printed
    a field that is not an integer. *)
Definition query_rejected (int : string → option Z) (q : RunOutcome) : Prop :=
  match q with
  | Completes p => returncode p ≠ 0 ∨ unreadable int (stdout p)
  | Raises _ => True
  end.

(** A controller with one job that runs every two seconds. *)
Definition price_only : State :=
  mkState {["price" := new_task "Price" "price.py" 2]} false 0 [].

(** What a step of a worker thread does to the entry [t] of its task
    and to its own position. *)
Inductive worker_effect (t : Task) : PC → Action → Task → PC → Prop :=
| effect_test :
    worker_effect t AtLoop LoopTest t
      (if decide (status t = running) then Entering else Exited)
| effect_enter now :
    worker_effect t Entering (Enter now)
      (set_status running (set_last_run (Some now) t)) InFlight
| effect_finish o :
    worker_effect t InFlight (Finish o) (recorded t o) AtFinally
| effect_cleanup now :
    worker_effect t AtFinally (Cleanup now)
      (set_next_run (Some (now + interval t))
         (if decide (status t = running) then t else set_status stopped t))
      (Sleeping (Z.to_nat (interval t)))
| effect_tick n :
    worker_effect t (Sleeping (S n)) Tick t
      (if decide (status t = running) then Sleeping n else AtLoop)
| effect_wake :
    worker_effect t (Sleeping O) Tick t AtLoop
| effect_crash now e :
    worker_effect t AtFinally (Crash now e)
      (set_last_error (Some (str e))
         (set_status error
            (set_next_run (Some (now + interval t))
               (if decide (status t = running) then t
                else set_status stopped t))))
      Exited.

(** The steps of the system, with the state each of them leaves. *)
Inductive transition : System → Event → System → Prop :=
| tr_start_unknown s task_id now spawn :
    tasks s !! task_id = None →
    transition (mkSystem s Idle) (CallStart task_id now spawn) (mkSystem s Idle)
| tr_start_running s task_id now spawn t :
    tasks s !! task_id = Some t → status t = running →
    transition (mkSystem s Idle) (CallStart task_id now spawn) (mkSystem s Idle)
| tr_start_spawned s task_id now t :
    tasks s !! task_id = Some t → status t ≠ running →
    transition (mkSystem s Idle) (CallStart task_id now None)
      (mkSystem
         (set_threads (threads s ++ [mkWorker task_id AtLoop])
            (put task_id
               (set_thread (Some (length (threads s)))
                  (set_next_run (Some (now + interval t))
                     (set_status running t)))
               s))
         Idle)
| tr_start_failed s task_id now msg t :
    tasks s !! task_id = Some t → status t ≠ running →
    transition (mkSystem s Idle) (CallStart task_id now (Some msg))
      (mkSystem
         (put task_id
            (set_last_error (Some msg)
               (set_status error
                  (set_next_run (Some (now + interval t))
                     (set_status running t))))
            s)
         Idle)
| tr_stop_unknown s task_id :
    tasks s !! task_id = None →
    transition (mkSystem s Idle) (CallStop task_id) (mkSystem s Idle)
| tr_stop s task_id t :
    tasks s !! task_id = Some t →
    transition (mkSystem s Idle) (CallStop task_id)
      (mkSystem (put task_id (set_next_run None (set_status stopped t)) s)
         (InStop task_id))
| tr_join_returns s task_id t :
    tasks s !! task_id = Some t → waiting task_id s = false →
    transition (mkSystem s (InStop task_id)) JoinReturns
      (mkSystem (put task_id (set_thread None t) s) Idle)
| tr_join_times_out s task_id t :
    tasks s !! task_id = Some t → waiting task_id s = true →
    transition (mkSystem s (InStop task_id)) JoinTimesOut
      (mkSystem (put task_id (set_thread None t) s) Idle)
| tr_run_once_unknown s task_id now :
    tasks s !! task_id = None →
    transition (mkSystem s Idle) (CallRunOnce task_id now) (mkSystem s Idle)
| tr_run_once s task_id now t :
    tasks s !! task_id = Some t →
    transition (mkSystem s Idle) (CallRunOnce task_id now)
      (mkSystem (put task_id (set_last_run (Some now) t) s)
         (InRunOnce task_id (status t)))
| tr_run_once_returns s task_id original_status o t :
    tasks s !! task_id = Some t →
    transition (mkSystem s (InRunOnce task_id original_status))
      (RunOnceReturns o)
      (mkSystem (put task_id (set_status original_status (recorded t o)) s)
         Idle)
| tr_work s c h a w t t' pc' :
    threads s !! h = Some w → tasks s !! w_task w = Some t →
    worker_effect t (w_pc w) a t' pc' →
    transition (mkSystem s c) (Work h a)
      (mkSystem (set_pc h pc' (put (w_task w) t' s)) c).


(** A thread handle in the table is a thread of that task. *)
Definition handles_owned (s : State) : Prop :=
  ∀ task_id t h, tasks s !! task_id = Some t → thread t = Some h →
    ∃ w, threads s !! h = Some w ∧ w_task w = task_id.



(** No worker thread of the trace crashes. *)
Definition crash_free (tr : list Event) : Prop :=
  Forall (λ ev, is_crash ev = false) tr.

(** All events of the trace are steps of worker threads. *)
Definition workers_only (tr : list Event) : Prop :=
  Forall (λ ev, is_work ev = true) tr.

(** The thread has found its task running at the test of line 126 and
    has not yet reached line 75 of the [run_script] it calls at line
    129: the status it read is the one it is about to write. *)
Definition before_run_script (pc : PC) : bool :=
  match pc with
  | Entering => true
  | AtLoop | InFlight | AtFinally | Sleeping _ | Exited => false
  end.

(** The thread is in a round of its loop: it has passed the test of
    line 126 and the [run_script] of this round has not returned. *)
Definition in_round (pc : PC) : bool :=
  match pc with
  | Entering | InFlight | AtFinally => true
  | AtLoop | Sleeping _ | Exited => false
  end.




(** A script that exits with code 0. *)
Definition exits_ok : RunOutcome := Completes (mkCompleted 0 "" "").

(** The news task is started and its thread is running the script. *)
Definition news_in_flight : list Event :=
  [CallStart "news_aggregation" 0 None;
   Work 0 LoopTest;
   Work 0 (Enter 1)].

(** While the script runs the task is stopped, the [join] times out, and
    the task is started again; the second thread reaches its script
    while the first one is still in its own. *)
Definition restart_after_timeout : list Event :=
  news_in_flight ++
  [CallStop "news_aggregation";
   JoinTimesOut;
   CallStart "news_aggregation" 10 None;
   Work 1 LoopTest;
   Work 1 (Enter 11)].



(** The task is stopped between the test of the worker loop and line
    75, and the [join] times out while the script runs. *)
Definition stop_overtaken : list Event :=
  [CallStart "news_aggregation" 0 None;
   Work 0 LoopTest;
   CallStop "news_aggregation";
   Work 0 (Enter 1);
   JoinTimesOut].

(** What the worker thread does while [stop_task] waits for it, when
    the script ends within the five seconds. *)
Definition script_ends_in_time : list Event :=
  [Work 0 (Finish exits_ok);
   Work 0 (Cleanup 5);
   Work 0 Tick;
   Work 0 LoopTest].

(** The thread of the news task enters its loop and runs its script. *)
Definition news_worker_runs : list Event :=
  [Work 0 LoopTest;
   Work 0 (Enter 1);
   Work 0 (Finish exits_ok)].


(** The thread of the news task has run its script once and sleeps. *)
Definition news_sleeping : list Event :=
  news_in_flight ++ [Work 0 (Finish exits_ok); Work 0 (Cleanup 5)].

(** The system a trace leads to from a new controller; the new
    controller itself when the trace cannot be run. *)
Definition after (tr : list Event) : System :=
  default (mkSystem (init 0) Idle) (run tr (mkSystem (init 0) Idle)).
(** ** [start_all_tasks], [stop_all_tasks] *)

Definition set_is_running (b : bool) (s : State) : State :=
  mkState (tasks s) b (start_time s) (threads s).

(** [self.is_running = b] *)
Definition assign_is_running (b : bool) : M unit := λ s,
  (set_is_running b s, Ret tt).

(** The ids [for task_id in self.tasks] goes through; as for [items],
    in the order of the keys. *)
Definition keys (s : State) : list string := (items s).*1.

(** Lines 204-205, over the ids [ids]: [now] is the clock and [spawn]
    the fate of the thread start in the call for each id. What
    [start_task] returns is dropped. *)
Fixpoint start_each (ids : list string) (now : string → Z)
    (spawn : string → option string) : M unit :=
  match ids with
  | [] => mret tt
  | task_id :: ids' =>
      start_task task_id (now task_id) (spawn task_id);;
      start_each ids' now spawn
  end.

(** [start_all_tasks()] *)
Definition start_all_tasks (now : string → Z)
    (spawn : string → option string) : M unit :=
  assign_is_running true;;
  ids ← reads keys;
  start_each ids now spawn.

(** Lines 214-215, over the ids [ids]. *)
Fixpoint stop_each (ids : list string) : M unit :=
  match ids with
  | [] => mret tt
  | task_id :: ids' => stop_task task_id;; stop_each ids'
  end.

(** [stop_all_tasks()] *)
Definition stop_all_tasks : M unit :=
  assign_is_running false;;
  ids ← reads keys;
  stop_each ids.

(** What [stop_task] makes of an entry. *)
Definition stopped_entry (t : Task) : Task :=
  set_thread None (set_next_run None (set_status stopped t)).

(** ** The query script and its output *)

(** [str(n)] for an [int]. *)
Definition str_int (n : Z) : string := pretty n.

(** What line 241 of the query script prints for the three counts:
    [print(f'{price_count},{news_count},{coins_count}')]. *)
Definition print_counts (price_count news_count coins_count : Z) : string :=
  str_int price_count +:+ "," +:+ str_int news_count +:+ ","
  +:+ str_int coins_count +:+ newline.

(** All characters of the text satisfy [p]. *)
Fixpoint all_chars (p : ascii → bool) (s : string) : bool :=
  match s with
  | EmptyString => true
  | String c s' => p c && all_chars p s'
  end.

(** A decimal digit or the minus sign. *)
Definition is_numeral (c : ascii) : bool :=
  match digit_of c with
  | Some _ => true
  | None => Ascii.eqb c "-"
  end.

(** ** The endpoints of [api.py] that call the controller *)

(** What an endpoint can raise: an [HTTPException], which FastAPI turns
    into a response with that status code, or an exception that came
    out of the controller. *)
Inductive ApiExn :=
| HTTPException (status_code : Z) (detail : string)
| Escaped (e : Exn).

Inductive Reply (A : Type) :=
| Replies (a : A)
| Fails (e : ApiExn).
Arguments Replies {A} a.
Arguments Fails {A} e.

Definition Endpoint (A : Type) : Type := State → State * Reply A.

#[global] Instance Endpoint_ret : MRet Endpoint := λ A a s, (s, Replies a).
#[global] Instance Endpoint_bind : MBind Endpoint := λ A B k m s,
  match m s with
  | (s', Replies a) => k a s'
  | (s', Fails e) => (s', Fails e)
  end.

Definition api_raise {A} (e : ApiExn) : Endpoint A := λ s, (s, Fails e).

(** [try: body  except Exception as e: handler e] in an endpoint. *)
Definition api_try {A} (body : Endpoint A) (handler : ApiExn → Endpoint A)
    : Endpoint A := λ s,
  match body s with
  | (s', Replies a) => (s', Replies a)
  | (s', Fails e) => handler e s'
  end.

(** A call of a method of [automation_controller]. *)
Definition call {A} (m : M A) : Endpoint A := λ s,
  match m s with
  | (s', Ret a) => (s', Replies a)
  | (s', Raise e) => (s', Fails (Escaped e))
  end.

(** The dictionary [{"success": ..., "message": ...}]. *)
Record Message := mkMessage { success : bool; message : string }.

Section Api.
(** [str(e)] for [e = HTTPException(status_code, detail)]. *)
Variable str_http : Z → string → string.

Definition str_api (e : ApiExn) : string :=
  match e with
  | HTTPException status_code detail => str_http status_code detail
  | Escaped e => str e
  end.

(** [automation_controller] is the controller, or [None] when the
    import at lines 15-19 failed; [available] is its truth value. *)

(** Lines 825-839. *)
Definition start_automation_task (available : bool) (task_id : string)
    (now : Z) (spawn : option string) : Endpoint Message :=
  if negb available then
    api_raise (HTTPException 503 "Automation controller not available")
  else
    api_try
      (success ← call (start_task task_id now spawn);
       if success : bool then
         mret (mkMessage true ("Task " +:+ task_id +:+ " started successfully"))
       else
         api_raise (HTTPException 400 ("Failed to start task " +:+ task_id)))
      (λ e, api_raise
              (HTTPException 500 ("Error starting task: " +:+ str_api e))).

(** Lines 842-856. *)
Definition stop_automation_task (available : bool) (task_id : string)
    : Endpoint Message :=
  if negb available then
    api_raise (HTTPException 503 "Automation controller not available")
  else
    api_try
      (success ← call (stop_task task_id);
       if success : bool then
         mret (mkMessage true ("Task " +:+ task_id +:+ " stopped successfully"))
       else
         api_raise (HTTPException 400 ("Failed to stop task " +:+ task_id)))
      (λ e, api_raise
              (HTTPException 500 ("Error stopping task: " +:+ str_api e))).

(** Lines 859-873. *)
Definition run_task_once (available : bool) (task_id : string)
    (now : Z) (o : RunOutcome) : Endpoint Message :=
  if negb available then
    api_raise (HTTPException 503 "Automation controller not available")
  else
    api_try
      (success ← call (run_once task_id now o);
       if success : bool then
         mret (mkMessage true ("Task " +:+ task_id +:+ " executed successfully"))
       else
         api_raise (HTTPException 400 ("Failed to execute task " +:+ task_id)))
      (λ e, api_raise
              (HTTPException 500 ("Error executing task: " +:+ str_api e))).
End Api.

(** The status code of the response, 200 when the endpoint returns. *)
Definition status_code_of {A} (r : Reply A) : option Z :=
  match r with
  | Replies _ => Some 200
  | Fails (HTTPException status_code _) => Some status_code
  | Fails (Escaped _) => None
  end.

(** What a call [start_task(task_id)] in state [s] has made of the
    entry [t] when the state is [s']: a running task is left alone; a
    thread that could be started is a thread of [s'] that [s] did not
    have and the entry holds its handle; a thread that could not be
    started leaves the status [error] and the text of the exception. *)
Definition started_as (task_id : string) (now : Z) (spawn : option string)
    (s : State) (t : Task) (s' : State) (t' : Task) : Prop :=
  (status t = running → t' = t) ∧
  (status t ≠ running → spawn = None →
     status t' = running ∧ next_run t' = Some (now + interval t) ∧
     ∃ h, thread t' = Some h ∧ (length (threads s) ≤ h)%nat ∧
          threads s' !! h = Some (mkWorker task_id AtLoop)) ∧
  (status t ≠ running → ∀ msg, spawn = Some msg →
     status t' = error ∧ last_error t' = Some msg ∧ thread t' = thread t).


(** The description of the job in the entry [t'] is that of [t]. *)
Definition same_job (t t' : Task) : Prop :=
  name t' = name t ∧ script t' = script t ∧ interval t' = interval t ∧
  process t' = process t.

(** The tables of [s] and [s'] have the same ids, with the same job
    under each. *)
Definition same_table (s s' : State) : Prop :=
  ∀ task_id,
    match tasks s !! task_id, tasks s' !! task_id with
    | Some t, Some t' => same_job t t'
    | None, None => True
    | _, _ => False
    end.

(** Every thread of [s] is a thread of [s'], of the same task, and has
    left [task_worker] in [s'] if it had in [s]. *)
Definition threads_kept (s s' : State) : Prop :=
  ∀ h w, threads s !! h = Some w →
    ∃ w', threads s' !! h = Some w' ∧ w_task w' = w_task w ∧
          (w_pc w = Exited → w_pc w' = Exited).

(** What a worker thread does from the end of its script on when its
    task is not running any more. *)
Definition worker_winds_down (h : nat) (o : RunOutcome) (now : Z)
    : list Event :=
  [Work h (Finish o); Work h (Cleanup now); Work h Tick; Work h LoopTest].
(** * Proofs *)

(** ** Running a method on a state *)

Arguments slice_to : simpl never.

Lemma lookup_put task_id t s : tasks (put task_id t s) !! task_id = Some t.
Proof. apply lookup_insert_eq. Qed.

Lemma lookup_put_ne task_id j t s :
  task_id ≠ j → tasks (put task_id t s) !! j = tasks s !! j.
Proof. intros. by apply lookup_insert_ne. Qed.

Lemma put_put task_id t1 t2 s :
  put task_id t2 (put task_id t1 s) = put task_id t2 s.
Proof. unfold put, set_tasks. simpl. by rewrite insert_insert_eq. Qed.

Lemma put_same task_id t s : tasks s !! task_id = Some t → put task_id t s = s.
Proof.
  intros H. unfold put, set_tasks. rewrite insert_id by done. by destruct s.
Qed.

Lemma run_assoc {A B C} (m : M A) (f : A → M B) (g : B → M C) s :
  ((m ≫= f) ≫= g) s = (m ≫= λ a, f a ≫= g) s.
Proof. unfold mbind, M_bind. by destruct (m s) as [? []]. Qed.

Lemma run_ret {A B} (a : A) (k : A → M B) s : ((mret a : M A) ≫= k) s = k a s.
Proof. done. Qed.

Lemma run_raise {A B} e (k : A → M B) s : (raise e ≫= k) s = (s, Raise e).
Proof. done. Qed.

Lemma run_bind {A B} (m : M A) (k : A → M B) s s' a :
  m s = (s', Ret a) → (m ≫= k) s = k a s'.
Proof. intros H. unfold mbind, M_bind. by rewrite H. Qed.

Lemma run_contains {B} task_id (k : bool → M B) s t :
  tasks s !! task_id = Some t → (contains task_id ≫= k) s = k true s.
Proof.
  intros H. unfold mbind, M_bind, contains.
  by rewrite bool_decide_eq_true_2 by (by rewrite H).
Qed.

Lemma run_contains_not {B} task_id (k : bool → M B) s :
  tasks s !! task_id = None → (contains task_id ≫= k) s = k false s.
Proof.
  intros H. unfold mbind, M_bind, contains.
  rewrite bool_decide_eq_false_2; [done|]. rewrite H. by intros [? ?].
Qed.

Lemma run_get {B} task_id (k : Task → M B) s t :
  tasks s !! task_id = Some t → (get_task task_id ≫= k) s = k t s.
Proof. intros H. unfold mbind, M_bind, get_task. by rewrite H. Qed.

Lemma run_modify {B} task_id f (k : unit → M B) s t :
  tasks s !! task_id = Some t →
  (modify_task task_id f ≫= k) s = k tt (put task_id (f t) s).
Proof. intros H. unfold mbind, M_bind, modify_task. by rewrite H. Qed.

Lemma modify_task_known task_id f s t :
  tasks s !! task_id = Some t →
  modify_task task_id f s = (put task_id (f t) s, Ret tt).
Proof. intros H. unfold modify_task. by rewrite H. Qed.

Lemma mret_run {A} (a : A) s : (mret a : M A) s = (s, Ret a).
Proof. done. Qed.

Ltac known_task := first [eassumption | apply lookup_put].

Ltac run_step :=
  first
    [ rewrite run_assoc
    | rewrite run_ret
    | rewrite run_raise
    | erewrite run_contains by known_task
    | erewrite run_get by known_task
    | erewrite run_modify by known_task
    | erewrite modify_task_known by known_task
    | rewrite mret_run
    | rewrite put_put ].

Ltac run := repeat (run_step; cbv beta iota).

Lemma slice_to_length n s : String.length (slice_to n s) = (n `min` String.length s)%nat.
Proof.
  revert s. induction n as [|n IH]; intros [|a s]; simpl; try done.
  unfold slice_to; fold slice_to. simpl. by rewrite IH.
Qed.

Lemma slice_to_bound n s : (String.length (slice_to n s) ≤ n)%nat.
Proof. rewrite slice_to_length. lia. Qed.

(** ** The pieces of [run_script] on a registered task *)

Section Pieces.
Context (task_id : string) (s : State) (t : Task).
Hypothesis Hreg : tasks s !! task_id = Some t.

Lemma run_script_mark_known now :
  run_script_mark task_id now s
  = (put task_id (set_status running (set_last_run (Some now) t)) s, Ret tt).
Proof using Hreg. unfold run_script_mark. by run. Qed.

Lemma run_once_mark_known now :
  run_once_mark task_id now s
  = (put task_id (set_last_run (Some now) t) s, Ret tt).
Proof using Hreg. unfold run_once_mark. by run. Qed.

Lemma record_known o :
  try_except (record_result task_id o) (record_exception task_id) s
  = (put task_id (recorded t o) s, Ret (succeeded o)).
Proof using Hreg.
  unfold try_except, record_result, record_exception, subprocess_run.
  destruct o as [p|[m|m]]; simpl; run.
  - case_bool_decide; by run.
  - by run.
  - by run.
Qed.

Lemma run_script_finally_known now :
  run_script_finally task_id now s
  = (put task_id
       (set_next_run (Some (now + interval t))
          (if decide (status t = running) then t else set_status stopped t))
       s, Ret tt).
Proof using Hreg.
  unfold run_script_finally. run. case_decide; by run.
Qed.

Lemma stop_task_signal_known :
  stop_task_signal task_id s
  = (put task_id (set_next_run None (set_status stopped t)) s, Ret tt).
Proof using Hreg. unfold stop_task_signal. by run. Qed.

Lemma stop_task_clear_known :
  stop_task_clear task_id s = (put task_id (set_thread None t) s, Ret tt).
Proof using Hreg. unfold stop_task_clear. by run. Qed.

Lemma stop_task_join_known : stop_task_join task_id s = (s, Ret tt).
Proof using Hreg.
  unfold stop_task_join. run. destruct (thread t); [|done].
  unfold is_alive, join, mbind, M_bind. by destruct (alive _ _).
Qed.

Lemma run_once_restore_known st :
  run_once_restore task_id st s = (put task_id (set_status st t) s, Ret tt).
Proof using Hreg. unfold run_once_restore. by run. Qed.
End Pieces.

Lemma try_except_bind {A B} (m : M A) (k : A → M B) h s s' a :
  m s = (s', Ret a) → try_except (m ≫= k) h s = try_except (k a) h s'.
Proof. intros H. unfold try_except. by rewrite (run_bind _ _ _ _ _ H). Qed.

(** ** The methods on a registered task *)

Lemma recorded_frame t o :
  name (recorded t o) = name t ∧ script (recorded t o) = script t ∧
  interval (recorded t o) = interval t ∧ status (recorded t o) = status t ∧
  last_run (recorded t o) = last_run t ∧ next_run (recorded t o) = next_run t ∧
  process (recorded t o) = process t ∧ thread (recorded t o) = thread t.
Proof.
  destruct o as [p|[m|m]]; simpl; [case_bool_decide|..]; by repeat split.
Qed.


Section Registered.
Context (task_id : string) (s : State) (t : Task).
Hypothesis Hreg : tasks s !! task_id = Some t.

Lemma run_script_known script_name now o now' :
  run_script script_name task_id now o now' s
  = (put task_id (after_run_script t now o now') s, Ret (succeeded o)).
Proof using Hreg.
  unfold run_script, try_finally.
  rewrite (try_except_bind _ _ _ _ _ _ (run_script_mark_known _ _ _ Hreg now)).
  rewrite (record_known _ _ _ (lookup_put _ _ _)), put_put.
  rewrite (run_script_finally_known _ _ _ (lookup_put _ _ _)), put_put.
  destruct (recorded_frame (set_status running (set_last_run (Some now) t)) o)
    as (_ & _ & Hi & Hs & _).
  by rewrite Hs, Hi.
Qed.

(** [run_script] is its three pieces one after the other: they are
    the steps [Enter], [Finish] and [Cleanup] of a worker thread. *)
Lemma run_script_pieces script_name now o now' :
  exec (run_script script_name task_id now o now') s
  = exec (run_script_finally task_id now')
      (exec (try_except (record_result task_id o) (record_exception task_id))
         (exec (run_script_mark task_id now) s)).
Proof using Hreg.
  unfold exec. rewrite run_script_known, (run_script_mark_known _ _ _ Hreg).
  simpl. rewrite (record_known _ _ _ (lookup_put _ _ _)). simpl.
  rewrite put_put, (run_script_finally_known _ _ _ (lookup_put _ _ _)).
  simpl. rewrite put_put.
  destruct (recorded_frame (set_status running (set_last_run (Some now) t)) o)
    as (_ & _ & Hi & Hs & _).
  by rewrite Hs, Hi.
Qed.

Lemma run_once_known now o :
  run_once task_id now o s
  = (put task_id (after_run_once t now o) s, Ret (succeeded o)).
Proof using Hreg.
  unfold run_once. run. simpl. run. unfold try_finally.
  rewrite (try_except_bind _ _ _ _ _ _ (run_once_mark_known _ _ _ Hreg now)).
  rewrite (record_known _ _ _ (lookup_put _ _ _)), put_put.
  by rewrite (run_once_restore_known _ _ _ (lookup_put _ _ _)), put_put.
Qed.

(** [run_once] is the step [CallRunOnce] followed by [RunOnceReturns]. *)
Lemma run_once_pieces now o :
  exec (run_once task_id now o) s
  = exec (try_finally
            (try_except (record_result task_id o) (record_exception task_id))
            (run_once_restore task_id (status t)))
      (exec (run_once_mark task_id now) s).
Proof using Hreg.
  unfold exec. rewrite run_once_known, (run_once_mark_known _ _ _ Hreg).
  simpl. unfold try_finally.
  rewrite (record_known _ _ _ (lookup_put _ _ _)), put_put.
  by rewrite (run_once_restore_known _ _ _ (lookup_put _ _ _)), put_put.
Qed.

Lemma stop_task_known :
  stop_task task_id s
  = (put task_id (set_thread None (set_next_run None (set_status stopped t))) s,
     Ret true).
Proof using Hreg.
  unfold stop_task. run. simpl. unfold try_except.
  rewrite (run_bind _ _ _ _ _ (stop_task_signal_known _ _ _ Hreg)).
  rewrite (run_bind _ _ _ _ _ (stop_task_join_known _ _ _ (lookup_put _ _ _))).
  unfold stop_task_clear. by run.
Qed.

(** [stop_task] is the step [CallStop] followed by the return of the
    [join]. *)
Lemma stop_task_pieces :
  exec (stop_task task_id) s
  = exec (stop_task_clear task_id) (exec (stop_task_signal task_id) s).
Proof using Hreg.
  unfold exec. rewrite stop_task_known, (stop_task_signal_known _ _ _ Hreg).
  simpl. rewrite (stop_task_clear_known _ _ _ (lookup_put _ _ _)).
  simpl. by rewrite put_put.
Qed.

Lemma start_task_running now spawn :
  status t = running → start_task task_id now spawn s = (s, Ret true).
Proof using Hreg.
  intros Hs. unfold start_task. run. simpl. run.
  by rewrite decide_True by done.
Qed.

Lemma start_task_spawned now :
  status t ≠ running →
  start_task task_id now None s
  = (set_threads (threads s ++ [mkWorker task_id AtLoop])
       (put task_id
          (set_thread (Some (length (threads s)))
             (set_next_run (Some (now + interval t)) (set_status running t)))
          s),
     Ret true).
Proof using Hreg.
  intros Hs. unfold start_task. run. simpl. run.
  rewrite decide_False by done. unfold try_except. run.
  unfold thread_start, mbind, M_bind. simpl.
  unfold modify_task. simpl. rewrite lookup_insert_eq.
  unfold put, set_tasks, set_threads. simpl. by rewrite insert_insert_eq.
Qed.

Lemma start_task_failed now msg :
  status t ≠ running →
  start_task task_id now (Some msg) s
  = (put task_id
       (set_last_error (Some msg)
          (set_status error
             (set_next_run (Some (now + interval t)) (set_status running t))))
       s,
     Ret false).
Proof using Hreg.
  intros Hs. unfold start_task. run. simpl. run.
  rewrite decide_False by done. unfold try_except. run.
  unfold thread_start. run. by run.
Qed.

Lemma task_worker_except_known e :
  task_worker_except task_id e s
  = (put task_id (set_last_error (Some (str e)) (set_status error t)) s,
     Ret tt).
Proof using Hreg. unfold task_worker_except. by run. Qed.
End Registered.

(** X2: on an id that is not in the table [run_script] raises and
    writes nothing: the [KeyError] of line 74 is caught at line 102,
    line 103 raises it again, and the [finally] block lets it pass.
    The text of the exception is [repr(task_id)]. *)
Lemma run_script_unknown script_name task_id now o now' s :
  tasks s !! task_id = None →
  run_script script_name task_id now o now' s = (s, Raise (KeyError task_id)).
Proof.
  intros Hno.
  unfold run_script, try_finally, try_except, run_script_mark,
    run_script_finally, record_exception.
  rewrite run_assoc. unfold mbind, M_bind, modify_task, get_task, contains.
  rewrite Hno. simpl. rewrite Hno.
  rewrite bool_decide_eq_false_2; [done|]. rewrite Hno. by intros [? ?].
Qed.

(** ** The methods one call at a time *)

(** C1: [start_task] on a registered task whose status is already
    [running] returns [True] and leaves the whole state as it was: no
    thread is started and no field of any task changes, whatever the
    clock and whether or not a thread could have been started. *)
Theorem start_task_running_is_noop task_id now spawn s t :
  tasks s !! task_id = Some t →
  status t = running →
  start_task task_id now spawn s = (s, Ret true).
Proof. intros Hreg Hs. by apply (start_task_running task_id s t). Qed.

(** A second [start_task] right after the first. *)
Lemma start_task_running_is_noop_witness :
  (∃ t, tasks (started "news_aggregation") !! "news_aggregation" = Some t ∧
        status t = running) ∧
  start_task "news_aggregation" 9 None (started "news_aggregation")
  = (started "news_aggregation", Ret true).
Proof.
  assert (∃ t, tasks (started "news_aggregation") !! "news_aggregation" = Some t
               ∧ status t = running) as Hex.
  { eexists. split; [vm_compute; reflexivity|reflexivity]. }
  split; [exact Hex|]. destruct Hex as (t & Hreg & Hs).
  exact (start_task_running_is_noop "news_aggregation" 9 None _ t Hreg Hs).
Defined.

(** C2: [run_once] on a registered task, whatever its status and however
    the script ends, returns with the status the task had at the call;
    only the entry of that task changes, and in it [next_run], the
    fields of the job description ([name], [script], [interval]),
    [process] and [thread] are as before: what changes is confined to
    [last_run], the two counters and [last_error]. *)
Theorem run_once_preserves_status task_id now o s t :
  tasks s !! task_id = Some t →
  ∃ b t',
    run_once task_id now o s = (put task_id t' s, Ret b) ∧
    status t' = status t ∧ next_run t' = next_run t ∧
    name t' = name t ∧ script t' = script t ∧ interval t' = interval t ∧
    process t' = process t ∧ thread t' = thread t.
Proof.
  intros Hreg. exists (succeeded o), (after_run_once t now o).
  split; [by apply run_once_known|].
  destruct (recorded_frame (set_last_run (Some now) t) o)
    as (Hn & Hsc & Hi & _ & _ & Hnr & Hp & Hth).
  unfold after_run_once. simpl. by rewrite Hn, Hsc, Hi, Hnr, Hp, Hth.
Qed.

(** [run_once] on a running task whose script times out. *)
Lemma run_once_preserves_status_witness :
  ∃ t, tasks (started "market_analysis") !! "market_analysis" = Some t ∧
    status t = running ∧
    ∃ b t',
      run_once "market_analysis" 7 (Raises (TimeoutExpired "timed out"))
        (started "market_analysis")
      = (put "market_analysis" t' (started "market_analysis"), Ret b) ∧
      status t' = running.
Proof.
  eexists. split; [vm_compute; reflexivity|]. split; [reflexivity|].
  edestruct (run_once_preserves_status "market_analysis" 7
               (Raises (TimeoutExpired "timed out"))
               (started "market_analysis"))
    as (b & t' & Hrun & Hst & _); [vm_compute; reflexivity|].
  exists b, t'. split; [exact Hrun|exact Hst].
Defined.

(** C3: one call of [run_script] on a registered task never raises. It
    sets [last_run] to the time of the call before the script is run (the
    entry [t1] is the one in place while the script runs), and [last_run]
    still holds that time when the call returns. If the script exits
    with code 0 the call returns [True], [success_count] has grown by
    one, [last_error] is [None] and [error_count] is as before. If it
    exits with another code the call returns [False], [error_count] has
    grown by one and [last_error] is the first 200 characters of the
    script's error output (["Unknown error"] when that is empty), at most
    200 characters in any case. If the script times out the call returns
    [False], [error_count] has grown by one and [last_error] is the text
    ["Script timed out after 10 minutes"]. On any other exception the
    call returns [False], [error_count] has grown by one and
    [last_error] is the first 200 characters of the exception text.
    [success_count] is unchanged in the three failure cases. *)
Theorem run_script_outcomes script_name task_id now o now' s t :
  tasks s !! task_id = Some t →
  ∃ b t1 t',
    run_script_mark task_id now s = (put task_id t1 s, Ret tt) ∧
    last_run t1 = Some now ∧
    run_script script_name task_id now o now' s = (put task_id t' s, Ret b) ∧
    last_run t' = Some now ∧
    match o with
    | Completes p =>
        if decide (returncode p = 0) then
          b = true ∧ success_count t' = success_count t + 1 ∧
          last_error t' = None ∧ error_count t' = error_count t
        else
          b = false ∧ error_count t' = error_count t + 1 ∧
          success_count t' = success_count t ∧
          ∃ msg, last_error t' = Some msg ∧
            (String.length msg ≤ 200)%nat ∧
            msg = (if truthy (stderr p) then slice_to 200 (stderr p)
                   else "Unknown error")
    | Raises (TimeoutExpired _) =>
        b = false ∧ error_count t' = error_count t + 1 ∧
        success_count t' = success_count t ∧
        last_error t' = Some "Script timed out after 10 minutes"
    | Raises (Exception msg) =>
        b = false ∧ error_count t' = error_count t + 1 ∧
        success_count t' = success_count t ∧
        last_error t' = Some (slice_to 200 msg) ∧
        (String.length (slice_to 200 msg) ≤ 200)%nat
    end.
Proof.
  intros Hreg.
  exists (succeeded o), (set_status running (set_last_run (Some now) t)),
    (after_run_script t now o now').
  split; [by apply run_script_mark_known|]. split; [done|].
  split; [by apply run_script_known|].
  destruct (recorded_frame (set_status running (set_last_run (Some now) t)) o)
    as (_ & _ & _ & _ & Hlr & _).
  split; [unfold after_run_script; simpl; by rewrite Hlr|].
  unfold after_run_script, succeeded.
  destruct o as [p|[m|m]]; simpl.
  - case_decide as Hrc.
    + rewrite bool_decide_eq_true_2 by done. by simpl.
    + rewrite bool_decide_eq_false_2 by done. simpl.
      repeat split; try done. eexists. split; [done|]. split; [|done].
      destruct (truthy (stderr p)); [apply slice_to_bound|simpl; lia].
  - done.
  - repeat split; try done. apply slice_to_bound.
Qed.

(** The news script exits with code 1 and a short error output. *)
Lemma run_script_outcomes_witness :
  ∃ t, tasks (init 0) !! "news_aggregation" = Some t ∧
    ∃ t',
      run_script "fetch_news.py" "news_aggregation" 10
        (Completes (mkCompleted 1 "" "Traceback: no network")) 20 (init 0)
      = (put "news_aggregation" t' (init 0), Ret false) ∧
      error_count t' = error_count t + 1 ∧
      last_error t' = Some "Traceback: no network".
Proof.
  eexists. split; [vm_compute; reflexivity|].
  edestruct (run_script_outcomes "fetch_news.py" "news_aggregation" 10
               (Completes (mkCompleted 1 "" "Traceback: no network")) 20
               (init 0))
    as (b & t1 & t' & _ & _ & Hrun & _ & Hb & He & _ & msg & Hm & _ & Hmsg);
    [vm_compute; reflexivity|].
  exists t'. subst b. split; [exact Hrun|]. split; [exact He|].
  rewrite Hm, Hmsg. reflexivity.
Defined.

(** Where the texts come from. [run_script] and [run_once] cut the
    text they store at 200 characters (lines 93, 104, 352 and 363). The
    handler of [start_task] for a thread that cannot be started (line
    171) and the handler of the worker loop (line 141) store the text
    of the exception as it is: handed a text of 201 characters, each of
    them would store all of it. *)
Remark handlers_store_whole_text :
  String.length long_text = 201%nat ∧
  (∃ t,
     tasks (exec (start_task "news_aggregation" 0 (Some long_text)) (init 0))
       !! "news_aggregation" = Some t ∧
     status t = error ∧ last_error t = Some long_text) ∧
  (∃ sys t,
     run [CallStart "news_aggregation" 0 None; Work 0 LoopTest;
          Work 0 (Enter 1); Work 0 (Finish (Completes (mkCompleted 0 "" "")));
          Work 0 (Crash 2 (Exception long_text))]
       (mkSystem (init 0) Idle) = Some sys ∧
     tasks (state sys) !! "news_aggregation" = Some t ∧
     status t = error ∧ last_error t = Some long_text) ∧
  (∃ t,
     tasks (exec (run_script "fetch_news.py" "news_aggregation" 1
                    (Raises (Exception long_text)) 2) (init 0))
       !! "news_aggregation" = Some t ∧
     last_error t = Some (slice_to 200 long_text) ∧
     String.length (slice_to 200 long_text) = 200%nat).
Proof.
  split; [reflexivity|]. split; [|split].
  - eexists. split; [vm_compute; reflexivity|]. split; reflexivity.
  - eexists _, _. split; [vm_compute; reflexivity|].
    split; [vm_compute; reflexivity|]. split; reflexivity.
  - eexists. split; [vm_compute; reflexivity|]. split; vm_compute; reflexivity.
Qed.

(** C8: for an id that is not in the task table [start_task],
    [stop_task] and [run_once] each return [False] and leave the whole
    state, and with it every registered task, as it was. *)
Theorem unknown_task_fails task_id s :
  tasks s !! task_id = None →
  (∀ now spawn, start_task task_id now spawn s = (s, Ret false)) ∧
  stop_task task_id s = (s, Ret false) ∧
  (∀ now o, run_once task_id now o s = (s, Ret false)).
Proof.
  intros Hno. repeat split; intros;
    unfold start_task, stop_task, run_once;
    by rewrite (run_contains_not _ _ _ Hno).
Qed.

(** The id ["unknown"] on the controller as constructed. *)
Lemma unknown_task_fails_witness :
  tasks (init 0) !! "unknown" = None ∧
  (∀ now spawn, start_task "unknown" now spawn (init 0) = (init 0, Ret false)) ∧
  stop_task "unknown" (init 0) = (init 0, Ret false) ∧
  (∀ now o, run_once "unknown" now o (init 0) = (init 0, Ret false)).
Proof.
  split; [vm_compute; reflexivity|].
  apply (unknown_task_fails "unknown" (init 0)). vm_compute; reflexivity.
Defined.

(** ** [get_status] *)

Example strip_line : strip (" 12,3,4" +:+ newline) = "12,3,4".
Proof. reflexivity. Qed.

Example split_line : split "," "12,3,4" = ["12"; "3"; "4"].
Proof. reflexivity. Qed.

Example split_short :
  split "," "" = [""] ∧ split "," "7" = ["7"] ∧ split "," "7," = ["7"; ""].
Proof. by repeat split. Qed.

Example int_decimal_reads :
  int_decimal " -12 " = Some (-12) ∧ int_decimal "007" = Some 7 ∧
  int_decimal "" = None ∧ int_decimal "seven" = None ∧
  int_decimal "1 2" = None.
Proof. by repeat split. Qed.

Example counts_of_line :
  counts_of int_decimal (Completes (mkCompleted 0 ("12,3,4" +:+ newline) ""))
  = (12, 3, 4).
Proof. reflexivity. Qed.

Example counts_of_text :
  counts_of int_decimal (Completes (mkCompleted 0 "12,three,4" "")) = (0, 0, 0).
Proof. reflexivity. Qed.

Section StatusProofs.
Variable int : string → option Z.

Lemma count_at_run counts i s :
  count_at int counts i s
  = (s, match count_value int counts i with
        | Some n => Ret n
        | None => Raise (Exception "invalid literal for int() with base 10")
        end).
Proof.
  unfold count_at, count_value, to_int.
  destruct (counts !! i) as [x|]; [|done]. by destruct (int x).
Qed.

Lemma run_count_at {B} counts i (k : Z → M B) s :
  (count_at int counts i ≫= k) s
  = match count_value int counts i with
    | Some n => k n s
    | None => (s, Raise (Exception "invalid literal for int() with base 10"))
    end.
Proof.
  unfold mbind, M_bind. rewrite count_at_run.
  by destruct (count_value int counts i).
Qed.

(** The query never raises and writes nothing. *)
Lemma query_counts_run q s :
  query_counts int q s = (s, Ret (counts_of int q)).
Proof.
  unfold query_counts, try_except, counts_of, subprocess_run.
  destruct q as [p|e]; [|by rewrite run_raise].
  rewrite run_ret. case_bool_decide; [|done]. cbv zeta.
  rewrite !run_count_at.
  destruct (count_value int _ 0) as [a|]; [|done].
  rewrite !run_count_at.
  destruct (count_value int _ 1) as [b|]; [|done].
  rewrite !run_count_at.
  by destruct (count_value int _ 2) as [c|].
Qed.

Lemma counts_of_rejected q : query_rejected int q → counts_of int q = (0, 0, 0).
Proof.
  destruct q as [p|e]; [|done]. simpl. intros [Hrc|(i & x & Hi & Hx & Hint)].
  - by rewrite bool_decide_eq_false_2.
  - case_bool_decide; [|done]. cbv zeta.
    set (counts := split "," (strip (stdout p))) in *.
    assert (count_value int counts i = None) as Hnone.
    { unfold count_value. by rewrite Hx. }
    destruct i as [|[|[|i]]]; [..|lia]; rewrite Hnone.
    + done.
    + by destruct (count_value int counts 0).
    + by destruct (count_value int counts 0), (count_value int counts 1).
Qed.

(** A well-formed output is read as the three integers it holds. *)
Lemma counts_of_well_formed p :
  returncode p = 0 → well_formed int (stdout p) = true →
  ∃ a b c xa xb xc,
    split "," (strip (stdout p)) = [xa; xb; xc] ∧
    int xa = Some a ∧ int xb = Some b ∧ int xc = Some c ∧
    counts_of int (Completes p) = (a, b, c).
Proof.
  intros Hrc Hwf. unfold well_formed in Hwf. simpl.
  rewrite bool_decide_eq_true_2 by done.
  destruct (split "," (strip (stdout p))) as [|xa [|xb [|xc [|]]]]; try done.
  apply bool_decide_eq_true in Hwf as ([a Ha] & [b Hb] & [c Hc]).
  exists a, b, c, xa, xb, xc. unfold count_value. simpl.
  by rewrite Ha, Hb, Hc.
Qed.

Lemma get_status_run q now now' s :
  ∃ v,
    get_status int q now now' s = (s, Ret v) ∧
    view_tasks v = (λ kt, task_view kt.1 kt.2) <$> items s ∧
    (total_records (system_health v), total_news_articles (data_stats v),
     coins_tracked (data_stats v)) = counts_of int q ∧
    total_price_records (data_stats v) = total_records (system_health v).
Proof.
  unfold get_status.
  rewrite (run_bind _ _ _ _ _ (query_counts_run q s)).
  destruct (counts_of int q) as [[a b] c].
  unfold reads, mbind, M_bind, mret, M_ret. simpl.
  eexists. split; [reflexivity|]. by simpl.
Qed.
End StatusProofs.

Lemma task_view_listed s task_id t :
  tasks s !! task_id = Some t →
  task_view task_id t ∈ (λ kt, task_view kt.1 kt.2) <$> items s.
Proof.
  intros Hreg. apply list_elem_of_fmap. exists (task_id, t). split; [done|].
  unfold items. by apply elem_of_map_to_list.
Qed.

Lemma task_view_registered s row :
  row ∈ (λ kt, task_view kt.1 kt.2) <$> items s →
  ∃ task_id t, tasks s !! task_id = Some t ∧ row = task_view task_id t.
Proof.
  intros Hin. apply list_elem_of_fmap in Hin as ([task_id t] & -> & Hin).
  exists task_id, t. split; [|done]. unfold items in Hin.
  by apply elem_of_map_to_list in Hin.
Qed.

(** C6: [get_status] never raises and writes nothing, whatever the
    state and however the database query ends. What it returns has a
    row for every registered task, holding the task's status, last and
    next run, counters, last error and interval in whole minutes. When
    the query fails, that is, when it raises (a timeout included),
    exits with an error code or prints a field that is not an integer,
    the record counts are all zero. When it exits with code 0 and the
    fields it prints are integers, the counts reported are the ones
    read from the first three fields. *)
Theorem get_status_total_and_pure int q now now' s :
  ∃ v,
    get_status int q now now' s = (s, Ret v) ∧
    (∀ task_id t, tasks s !! task_id = Some t →
       ∃ row, row ∈ view_tasks v ∧
         task_name row = task_id ∧ display_name row = name t ∧
         view_status row = status t ∧
         view_last_run row = last_run t ∧ view_next_run row = next_run t ∧
         view_success_count row = success_count t ∧
         view_error_count row = error_count t ∧
         view_last_error row = last_error t ∧
         interval_minutes row = interval t `div` 60) ∧
    (query_rejected int q →
       total_price_records (data_stats v) = 0 ∧
       total_news_articles (data_stats v) = 0 ∧
       coins_tracked (data_stats v) = 0 ∧
       total_records (system_health v) = 0) ∧
    (∀ p, q = Completes p → returncode p = 0 → ¬ unreadable int (stdout p) →
       let counts := split "," (strip (stdout p)) in
       count_value int counts 0 = Some (total_price_records (data_stats v)) ∧
       count_value int counts 1 = Some (total_news_articles (data_stats v)) ∧
       count_value int counts 2 = Some (coins_tracked (data_stats v)) ∧
       total_records (system_health v) = total_price_records (data_stats v)).
Proof.
  destruct (get_status_run int q now now' s) as (v & Hrun & Hrows & Hc & Hp).
  exists v. split; [done|]. split; [|split].
  - intros task_id t Hreg. exists (task_view task_id t).
    split; [rewrite Hrows; by apply task_view_listed|done].
  - intros Hrej. rewrite (counts_of_rejected int q Hrej) in Hc.
    injection Hc as H1 H2 H3. by rewrite Hp, H1, H2, H3.
  - intros p -> Hrc Hread counts. rewrite Hp. simpl in Hc.
    rewrite bool_decide_eq_true_2 in Hc by done. fold counts in Hc.
    assert (∀ i, (i < 3)%nat → is_Some (count_value int counts i)) as Hsome.
    { intros i Hi. unfold count_value.
      destruct (counts !! i) as [x|] eqn:Hx; [|by eexists].
      destruct (int x) as [n|] eqn:Hn; [by eexists|].
      destruct Hread. by exists i, x. }
    destruct (Hsome 0%nat) as [a Ha]; [lia|].
    destruct (Hsome 1%nat) as [b Hb]; [lia|].
    destruct (Hsome 2%nat) as [c Hc']; [lia|].
    rewrite Ha, Hb, Hc' in *. by injection Hc as -> -> ->.
Qed.

(** C10: for every registered task the row [get_status] returns for it
    reports the interval in seconds floor-divided by 60: the reported
    minutes never exceed the interval and fall short of it by less than
    a minute, and an interval of less than 60 seconds is reported as 0. *)
Theorem interval_minutes_floor int q now now' s task_id t :
  tasks s !! task_id = Some t →
  ∃ v,
    get_status int q now now' s = (s, Ret v) ∧
    (∃ row, row ∈ view_tasks v ∧ task_name row = task_id) ∧
    ∀ row, row ∈ view_tasks v → task_name row = task_id →
      interval_minutes row = interval t `div` 60 ∧
      60 * interval_minutes row ≤ interval t < 60 * interval_minutes row + 60 ∧
      (0 ≤ interval t < 60 → interval_minutes row = 0).
Proof.
  intros Hreg.
  destruct (get_status_run int q now now' s) as (v & Hrun & Hrows & _).
  exists v. split; [done|]. split.
  - exists (task_view task_id t).
    split; [rewrite Hrows; by apply task_view_listed|done].
  - intros row Hin Hname. rewrite Hrows in Hin.
    apply task_view_registered in Hin as (task_id' & t' & Hreg' & ->).
    simpl in Hname. subst task_id'. rewrite Hreg in Hreg'.
    injection Hreg' as <-. simpl. split; [done|]. split.
    + pose proof (Z.mul_div_le (interval t) 60).
      pose proof (Z.mod_pos_bound (interval t) 60).
      pose proof (Z.div_mod (interval t) 60). lia.
    + intros Hsmall. by apply Z.div_small.
Qed.

(** A job that runs every two seconds is reported with 0 minutes. *)
Lemma interval_minutes_floor_witness :
  tasks price_only !! "price" = Some (new_task "Price" "price.py" 2) ∧
  ∃ v,
    get_status int_decimal (Raises (TimeoutExpired "timed out")) 100 101
      price_only = (price_only, Ret v) ∧
    ∀ row, row ∈ view_tasks v → task_name row = "price" →
      interval_minutes row = 0.
Proof.
  assert (tasks price_only !! "price" = Some (new_task "Price" "price.py" 2))
    as Hreg by (vm_compute; reflexivity).
  split; [exact Hreg|].
  destruct (interval_minutes_floor int_decimal
              (Raises (TimeoutExpired "timed out")) 100 101
              price_only "price" _ Hreg) as (v & Hrun & _ & Hrows).
  exists v. split; [exact Hrun|]. intros row Hin Hname.
  destruct (Hrows row Hin Hname) as (_ & _ & Hzero).
  apply Hzero. simpl. lia.
Defined.

(** ** The steps of the system *)

Lemma worker_step_effect h a s s' :
  worker_step h a s = Some s' →
  ∃ w t t' pc',
    threads s !! h = Some w ∧ tasks s !! w_task w = Some t ∧
    worker_effect t (w_pc w) a t' pc' ∧
    s' = set_pc h pc' (put (w_task w) t' s).
Proof.
  unfold worker_step. intros Hstep.
  destruct (threads s !! h) as [w|] eqn:Hw; [|done]. simpl in Hstep.
  destruct (tasks s !! w_task w) as [t|] eqn:Ht; [|done]. simpl in Hstep.
  exists w, t.
  destruct (w_pc w) as [| | | |[|n]|] eqn:Hpc, a as [|now|o|now| |now e];
    try done.
  - injection Hstep as <-.
    eexists _, _. split; [done|]. split; [done|]. split; [constructor|].
    by rewrite (put_same _ _ _ Ht).
  - injection Hstep as <-.
    eexists _, _. split; [done|]. split; [done|]. split; [constructor|].
    unfold exec. by rewrite (run_script_mark_known _ _ _ Ht).
  - injection Hstep as <-.
    eexists _, _. split; [done|]. split; [done|]. split; [constructor|].
    unfold exec. by rewrite (record_known _ _ _ Ht).
  - revert Hstep. unfold exec.
    rewrite (run_script_finally_known _ _ _ Ht). simpl.
    rewrite lookup_insert_eq. simpl. intros [= <-].
    eexists _, _. split; [done|]. split; [done|]. split; [constructor|].
    by destruct (decide (status t = running)).
  - injection Hstep as <-.
    eexists _, _. split; [done|]. split; [done|]. split; [constructor|].
    unfold exec. rewrite (run_script_finally_known _ _ _ Ht). simpl.
    rewrite (task_worker_except_known _ _ _ (lookup_put _ _ _)). simpl.
    by rewrite put_put.
  - injection Hstep as <-.
    eexists _, _. split; [done|]. split; [done|]. split; [constructor|].
    by rewrite (put_same _ _ _ Ht).
  - injection Hstep as <-.
    eexists _, _. split; [done|]. split; [done|]. split; [constructor|].
    by rewrite (put_same _ _ _ Ht).
Qed.

Lemma step_transition ev sys sys' :
  step ev sys = Some sys' → transition sys ev sys'.
Proof.
  destruct sys as [s c]. unfold step. simpl. intros Hstep.
  destruct ev as [task_id now spawn|task_id| | |task_id now|o|h a].
  - destruct c; try done. injection Hstep as <-.
    destruct (tasks s !! task_id) as [t|] eqn:Ht.
    + destruct (decide (status t = running)) as [Hs|Hs].
      * unfold exec. rewrite (start_task_running _ _ _ Ht _ _ Hs).
        by eapply tr_start_running.
      * destruct spawn as [msg|]; unfold exec.
        -- rewrite (start_task_failed _ _ _ Ht _ _ Hs). by constructor.
        -- rewrite (start_task_spawned _ _ _ Ht _ Hs). by constructor.
    + unfold exec, start_task. rewrite (run_contains_not _ _ _ Ht).
      by constructor.
  - destruct c; try done.
    destruct (tasks s !! task_id) as [t|] eqn:Ht; injection Hstep as <-.
    + unfold exec. rewrite (stop_task_signal_known _ _ _ Ht). by constructor.
    + by constructor.
  - destruct c as [|task_id|]; try done.
    destruct (tasks s !! task_id) as [t|] eqn:Ht; [|done]. simpl in Hstep.
    destruct (waiting task_id s) eqn:Hwait; [done|]. injection Hstep as <-.
    unfold exec. rewrite (stop_task_clear_known _ _ _ Ht). by constructor.
  - destruct c as [|task_id|]; try done.
    destruct (tasks s !! task_id) as [t|] eqn:Ht; [|done]. simpl in Hstep.
    destruct (waiting task_id s) eqn:Hwait; [|done]. injection Hstep as <-.
    unfold exec. rewrite (stop_task_clear_known _ _ _ Ht). by constructor.
  - destruct c; try done.
    destruct (tasks s !! task_id) as [t|] eqn:Ht; injection Hstep as <-.
    + unfold exec. rewrite (run_once_mark_known _ _ _ Ht). by constructor.
    + by constructor.
  - destruct c as [| |task_id original_status]; try done.
    destruct (tasks s !! task_id) as [t|] eqn:Ht; [|done]. simpl in Hstep.
    injection Hstep as <-. unfold exec, try_finally.
    rewrite (record_known _ _ _ Ht).
    rewrite (run_once_restore_known _ _ _ (lookup_put _ _ _)), put_put.
    by constructor.
  - destruct (worker_step h a s) as [s'|] eqn:Hw; [|by destruct c].
    assert (sys' = mkSystem s' c) as -> by (destruct c; by injection Hstep).
    apply worker_step_effect in Hw as (w & t & t' & pc' & Hh & Ht & He & ->).
    by econstructor.
Qed.

(** *** Facts about the steps of a worker thread *)

Lemma worker_effect_frame t pc a t' pc' :
  worker_effect t pc a t' pc' →
  thread t' = thread t ∧ name t' = name t ∧ script t' = script t ∧
  interval t' = interval t ∧ process t' = process t.
Proof.
  destruct 1; try done.
  - by destruct (recorded_frame t o) as (? & ? & ? & _ & _ & _ & ? & ?).
  - by destruct (decide (status t = running)).
  - by destruct (decide (status t = running)).
Qed.

Lemma worker_effect_live t pc a t' pc' : worker_effect t pc a t' pc' → pc ≠ Exited.
Proof. by destruct 1. Qed.




(** *** Live threads are the ones the table knows *)









Lemma fresh_init now : fresh (init now).
Proof.
  split; [done|]. intros task_id task. unfold init. simpl.
  rewrite !lookup_insert, lookup_empty.
  repeat case_decide; by intros [= <-].
Qed.

(** *** Thread handles *)

Lemma handles_owned_update s task_id t t' :
  handles_owned s → tasks s !! task_id = Some t →
  (∀ h, thread t' = Some h → thread t = Some h) →
  handles_owned (put task_id t' s).
Proof.
  intros Hown Ht Hsame j tj h Hj Hh. simpl in *.
  rewrite lookup_insert in Hj. case_decide as Hd.
  - injection Hj as <-. subst j. by apply (Hown task_id t h Ht), Hsame.
  - by apply (Hown j tj h).
Qed.

Lemma handles_owned_set_pc s h pc :
  handles_owned s → handles_owned (set_pc h pc s).
Proof.
  intros Hown j tj h' Hj Hh. simpl in *.
  destruct (Hown j tj h' Hj Hh) as (w & Hw & Htask).
  rewrite list_lookup_alter. case_decide as Hd.
  - subst h'. rewrite Hw. by eexists.
  - by exists w.
Qed.

Lemma handles_owned_step ev sys sys' :
  transition sys ev sys' →
  handles_owned (state sys) → handles_owned (state sys').
Proof.
  intros Htr Hown.
  destruct Htr as [s task_id now spawn Ht|s task_id now spawn t Ht Hs
    |s task_id now t Ht Hs|s task_id now msg t Ht Hs|s task_id Ht
    |s task_id t Ht|s task_id t Ht Hw|s task_id t Ht Hw|s task_id now Ht
    |s task_id now t Ht|s task_id orig o t Ht|s c h a w t t' pc' Hh Ht He];
    simpl in *; try done;
    try (by eapply handles_owned_update).
  - intros j tj h Hj Hh. simpl in *.
    rewrite lookup_insert in Hj. case_decide as Hd.
    + injection Hj as <-. subst j. simpl in Hh. injection Hh as <-.
      eexists. split; [by apply list_lookup_middle|done].
    + destruct (Hown j tj h Hj Hh) as (w & Hw & Htask).
      exists w. split; [by apply lookup_app_l_Some|done].
  - eapply handles_owned_update; [done..|].
    intros h. simpl. by destruct (recorded_frame t o) as (_&_&_&_&_&_&_& ->).
  - apply handles_owned_set_pc. eapply handles_owned_update; [done..|].
    intros h'. by destruct (worker_effect_frame _ _ _ _ _ He) as (-> & _).
Qed.

Lemma fresh_handles_owned s : fresh s → handles_owned s.
Proof.
  intros [_ Hall] task_id t h Ht Hh.
  destruct (Hall task_id t Ht) as [_ Hnone]. congruence.
Qed.






(** ** The controller and its threads *)

Lemma run_transitions tr sys sys' (P : System → Prop) (Q : Event → Prop) :
  (∀ ev a b, Q ev → transition a ev b → P a → P b) →
  Forall Q tr → run tr sys = Some sys' → P sys → P sys'.
Proof.
  intros Hstep Hall. revert sys.
  induction Hall as [|ev tr Hev Hall IH]; intros sys Hrun HP.
  - by injection Hrun as <-.
  - simpl in Hrun. destruct (step ev sys) as [sys1|] eqn:Hs; [|done].
    simpl in Hrun. apply (IH sys1 Hrun).
    eapply Hstep; [done|by apply step_transition|done].
Qed.

Lemma run_app tr1 tr2 sys :
  run (tr1 ++ tr2) sys = run tr1 sys ≫= run tr2.
Proof.
  revert sys. induction tr1 as [|ev tr1 IH]; intros sys; [done|].
  simpl. destruct (step ev sys) as [sys1|]; [apply IH|done].
Qed.







(** A [join] that times out breaks the correspondence the other way
    round: the worker passes the test of its loop, the task is stopped,
    the worker marks it [running] again at line 75, and [stop_task]
    clears the handle after five seconds. *)
Lemma running_without_handle :
  ∃ sys t,
    run stop_overtaken (mkSystem (init 0) Idle) = Some sys ∧
    caller sys = Idle ∧
    tasks (state sys) !! "news_aggregation" = Some t ∧
    status t = running ∧ thread t = None.
Proof.
  eexists _, _. split; [vm_compute; reflexivity|]. split; [reflexivity|].
  split; [vm_compute; reflexivity|]. split; reflexivity.
Qed.



(** *** [stop_task] while worker threads take steps *)

(** The steps of the worker threads leave the caller where it is and
    the table with the ids it has. *)
Lemma work_keeps_caller ev a b task_id c :
  is_work ev = true → transition a ev b →
  (caller a = c ∧ is_Some (tasks (state a) !! task_id)) →
  (caller b = c ∧ is_Some (tasks (state b) !! task_id)).
Proof.
  intros Hev Htr (Hc & Ht).
  destruct Htr as [| | | | | | | | | | |s c0 h a w t t' pc' Hh Htw He];
    try done.
  simpl in *. split; [done|]. by apply lookup_insert_is_Some'; right.
Qed.

Lemma stop_wait_step ev a b task_id t1 :
  status t1 = stopped →
  is_work ev = true → transition a ev b →
  (caller a = InStop task_id ∧ tasks (state a) !! task_id = Some t1 ∧
   ∀ h w, threads (state a) !! h = Some w → w_task w = task_id →
     in_round (w_pc w) = false) →
  (caller b = InStop task_id ∧ tasks (state b) !! task_id = Some t1 ∧
   ∀ h w, threads (state b) !! h = Some w → w_task w = task_id →
     in_round (w_pc w) = false).
Proof.
  intros Hst Hev Htr (Hc & Ht1 & Hquiet).
  destruct Htr as [| | | | | | | | | | |s c h a w t t' pc' Hh Ht He];
    try done.
  simpl in *. split; [done|].
  destruct (decide (w_task w = task_id)) as [Heq|Hne].
  - rewrite Heq in *. rewrite Ht1 in Ht. injection Ht as <-.
    pose proof (Hquiet h w Hh Heq) as Hq.
    assert (t' = t1 ∧ in_round pc' = false) as [-> Hq'].
    { destruct He; try done; rewrite Hst; by simpl. }
    split; [by rewrite lookup_insert_eq|].
    intros h2 w2 Hh2 Hw2. rewrite list_lookup_alter in Hh2.
    case_decide as Hd.
    + rewrite Hh in Hh2. by injection Hh2 as <-.
    + by apply (Hquiet h2 w2).
  - split; [by rewrite lookup_insert_ne|].
    intros h2 w2 Hh2 Hw2. rewrite list_lookup_alter in Hh2.
    case_decide as Hd.
    + rewrite Hh in Hh2. injection Hh2 as <-. simpl in Hw2. congruence.
    + by apply (Hquiet h2 w2).
Qed.

(** While [stop_task] waits, the status stays [stopped] as long as no
    thread of the task is about to write it at line 75 and no thread
    crashes: the threads of the task that are in [run_script] record
    their outcome and pass the [finally] block, which writes [stopped]
    again, and every test of the loop ends the thread. *)
Lemma stop_wait_status_step ev a b task_id :
  is_work ev = true ∧ is_crash ev = false → transition a ev b →
  (caller a = InStop task_id ∧
   (∃ t, tasks (state a) !! task_id = Some t ∧ status t = stopped) ∧
   ∀ h w, threads (state a) !! h = Some w → w_task w = task_id →
     before_run_script (w_pc w) = false) →
  (caller b = InStop task_id ∧
   (∃ t, tasks (state b) !! task_id = Some t ∧ status t = stopped) ∧
   ∀ h w, threads (state b) !! h = Some w → w_task w = task_id →
     before_run_script (w_pc w) = false).
Proof.
  intros [Hev Hcr] Htr (Hc & (t1 & Ht1 & Hst) & Hquiet).
  destruct Htr as [| | | | | | | | | | |s c h a w t t' pc' Hh Ht He];
    try done.
  simpl in *. split; [done|].
  destruct (decide (w_task w = task_id)) as [Heq|Hne].
  - rewrite Heq in *. rewrite Ht1 in Ht. injection Ht as <-.
    pose proof (Hquiet h w Hh Heq) as Hq.
    assert (status t' = stopped ∧ before_run_script pc' = false) as [Hst' Hq'].
    { destruct He; try done.
      - by rewrite Hst.
      - split; [|done].
        by destruct (recorded_frame t1 o) as (_ & _ & _ & -> & _).
      - by rewrite Hst.
      - by rewrite Hst. }
    split; [exists t'; by rewrite lookup_insert_eq|].
    intros h2 w2 Hh2 Hw2. rewrite list_lookup_alter in Hh2.
    case_decide as Hd.
    + rewrite Hh in Hh2. by injection Hh2 as <-.
    + by apply (Hquiet h2 w2).
  - split; [exists t1; by rewrite lookup_insert_ne|].
    intros h2 w2 Hh2 Hw2. rewrite list_lookup_alter in Hh2.
    case_decide as Hd.
    + rewrite Hh in Hh2. injection Hh2 as <-. simpl in Hw2. congruence.
    + by apply (Hquiet h2 w2).
Qed.

(** C7, as stated, fails: a task is stopped while its script runs, the
    script ends within the five seconds of the [join], and the
    [finally] block of [run_script] sets [next_run] again after
    [stop_task] has cleared it. When [stop_task] returns the status is
    [stopped] and the handle is cleared, but [next_run] holds a time;
    the worker has counted a success in the meantime. *)
Lemma stop_leaves_next_run_set :
  ∃ sys t sys' t',
    run news_in_flight (mkSystem (init 0) Idle) = Some sys ∧
    caller sys = Idle ∧
    tasks (state sys) !! "news_aggregation" = Some t ∧
    run (CallStop "news_aggregation" :: script_ends_in_time ++ [JoinReturns])
      sys = Some sys' ∧
    caller sys' = Idle ∧
    tasks (state sys') !! "news_aggregation" = Some t' ∧
    status t' = stopped ∧ thread t' = None ∧
    next_run t' = Some 1805 ∧
    success_count t = 0 ∧ success_count t' = 1.
Proof.
  eexists _, _, _, _. split; [vm_compute; reflexivity|].
  split; [reflexivity|]. split; [vm_compute; reflexivity|].
  split; [vm_compute; reflexivity|]. split; [reflexivity|].
  split; [vm_compute; reflexivity|]. repeat split; reflexivity.
Qed.

(** C7, amended: [stop_task] on a registered task returns [True]; run
    on its own it leaves the task with status [stopped], [next_run] and
    the thread handle cleared, and everything else as before. A call
    that waits in [join] while the worker threads take steps can always
    be completed, and when it returns, whether the [join] has returned
    or timed out, the thread handle of the task is cleared. If, when
    the call is made, no thread of the task stands between the test of
    its loop at line 126 and line 75 of the [run_script] that follows,
    and no thread crashes during the wait, then the status is
    [stopped] when the call returns, also if a thread of the task was
    running its script. If moreover no thread of the task is in a round
    of its loop when the call is made, that is, between the test of
    line 126 and the return of [run_script] (a task that was never
    started has no thread at all), then when the call returns the
    entry of the task is the one from before the call with status
    [stopped] and [next_run] and the handle cleared, so the counters
    and [last_error] are unchanged. *)
Theorem stop_task_with_workers sys task_id t wtr ev sys' :
  caller sys = Idle →
  tasks (state sys) !! task_id = Some t →
  workers_only wtr →
  ev = JoinReturns ∨ ev = JoinTimesOut →
  run (CallStop task_id :: wtr ++ [ev]) sys = Some sys' →
  let t' := set_thread None (set_next_run None (set_status stopped t)) in
  stop_task task_id (state sys) = (put task_id t' (state sys), Ret true) ∧
  (∃ ev0 sys0, (ev0 = JoinReturns ∨ ev0 = JoinTimesOut) ∧
     run [CallStop task_id; ev0] sys = Some sys0) ∧
  caller sys' = Idle ∧
  (∃ t'', tasks (state sys') !! task_id = Some t'' ∧ thread t'' = None ∧
     ((∀ h w, threads (state sys) !! h = Some w → w_task w = task_id →
         before_run_script (w_pc w) = false) →
      crash_free wtr →
      status t'' = stopped)) ∧
  ((∀ h w, threads (state sys) !! h = Some w → w_task w = task_id →
      in_round (w_pc w) = false) →
   tasks (state sys') !! task_id = Some t' ∧
   status t' = stopped ∧ next_run t' = None ∧ thread t' = None ∧
   success_count t' = success_count t ∧ error_count t' = error_count t ∧
   last_error t' = last_error t).
Proof.
  intros Hc Ht Hw Hev Hrun t'.
  split; [by apply stop_task_known|]. split.
  - destruct sys as [s c]. simpl in *. subst c.
    assert (exec (stop_task_signal task_id) s
            = put task_id (set_next_run None (set_status stopped t)) s) as Hex.
    { unfold exec. by rewrite (stop_task_signal_known _ _ _ Ht). }
    destruct (waiting task_id (exec (stop_task_signal task_id) s)) eqn:Hwait.
    + exists JoinTimesOut. eexists. split; [by right|]. simpl. rewrite Ht. simpl.
      rewrite Hex in *. rewrite lookup_put. simpl. rewrite Hwait. reflexivity.
    + exists JoinReturns. eexists. split; [by left|]. simpl. rewrite Ht. simpl.
      rewrite Hex in *. rewrite lookup_put. simpl. rewrite Hwait. reflexivity.
  - change (step (CallStop task_id) sys ≫= run (wtr ++ [ev]) = Some sys')
      in Hrun.
    destruct (step (CallStop task_id) sys) as [sys1|] eqn:Hs1; [|done].
    simpl in Hrun. rewrite run_app in Hrun.
    destruct (run wtr sys1) as [sys2|] eqn:Hs2; [|done].
    change (step ev sys2 ≫= Some = Some sys') in Hrun.
    destruct (step ev sys2) as [sys3|] eqn:Hs3; [|done].
    injection Hrun as <-.
    apply step_transition in Hs1, Hs3.
    set (t1 := set_next_run None (set_status stopped t)).
    assert (caller sys1 = InStop task_id ∧
            tasks (state sys1) !! task_id = Some t1 ∧
            threads (state sys1) = threads (state sys)) as (Hc1 & Ht1 & Hth1).
    { inversion Hs1; subst; simpl in *; [congruence|].
      match goal with H : tasks _ !! task_id = Some _ |- _ =>
        rewrite Ht in H; injection H as <- end.
      split; [done|]. split; [by rewrite lookup_insert_eq|done]. }
    pose proof (run_transitions wtr sys1 sys2 _ _
      (λ ev a b Hev Htr, work_keeps_caller ev a b task_id (InStop task_id)
                           Hev Htr)
      Hw Hs2 (conj Hc1 (ex_intro _ t1 Ht1))) as (Hc2 & t2 & Ht2).
    assert (caller sys3 = Idle ∧
            tasks (state sys3) !! task_id = Some (set_thread None t2))
      as [Hc3 Ht3].
    { destruct Hev as [-> | ->]; inversion Hs3; subst; simpl in *;
        injection Hc2 as ->;
        match goal with H : tasks _ !! task_id = Some _ |- _ =>
          rewrite Ht2 in H; injection H as <- end;
        by rewrite lookup_insert_eq. }
    split; [done|]. split.
    + exists (set_thread None t2). split; [done|]. split; [done|].
      intros Hquiet Hcrash. simpl.
      assert (Forall (λ ev, is_work ev = true ∧ is_crash ev = false) wtr)
        as Hall.
      { apply Forall_forall. intros ev0 Hev0. split.
        - by apply (proj1 (Forall_forall _ _) Hw).
        - by apply (proj1 (Forall_forall _ _) Hcrash). }
      assert (∀ h w, threads (state sys1) !! h = Some w → w_task w = task_id →
                before_run_script (w_pc w) = false) as Hquiet1.
      { by rewrite Hth1. }
      pose proof (run_transitions wtr sys1 sys2 _ _
        (λ ev a b Hev Htr, stop_wait_status_step ev a b task_id Hev Htr)
        Hall Hs2 (conj Hc1 (conj (ex_intro _ t1 (conj Ht1 eq_refl)) Hquiet1)))
        as (_ & (t2' & Ht2' & Hst2) & _).
      rewrite Ht2 in Ht2'. by injection Ht2' as ->.
    + intros Hquiet.
      assert (∀ h w, threads (state sys1) !! h = Some w → w_task w = task_id →
                in_round (w_pc w) = false) as Hquiet1.
      { by rewrite Hth1. }
      pose proof (run_transitions wtr sys1 sys2 _ _
        (λ ev a b Hev Htr, stop_wait_step ev a b task_id t1 eq_refl Hev Htr)
        Hw Hs2 (conj Hc1 (conj Ht1 Hquiet1))) as (_ & Ht2' & _).
      rewrite Ht2 in Ht2'. injection Ht2' as ->.
      by repeat split.
Qed.

(** The news task is stopped while its thread sleeps between two runs:
    the entry is the one from before the call, stopped and cleared.
    It is stopped while its thread runs the script, which ends within
    the wait: the status is [stopped] when the call returns. *)
Lemma stop_task_with_workers_witness :
  ∃ sys1 t1 sys2 t2,
    run (CallStop "news_aggregation"
         :: [Work 0 Tick; Work 0 LoopTest] ++ [JoinReturns])
      (after news_sleeping) = Some sys1 ∧
    tasks (state sys1) !! "news_aggregation" = Some t1 ∧
    status t1 = stopped ∧ next_run t1 = None ∧ thread t1 = None ∧
    run (CallStop "news_aggregation" :: script_ends_in_time ++ [JoinReturns])
      (after news_in_flight) = Some sys2 ∧
    tasks (state sys2) !! "news_aggregation" = Some t2 ∧
    status t2 = stopped ∧ thread t2 = None.
Proof.
  destruct (tasks (state (after news_sleeping)) !! "news_aggregation")
    as [ta|] eqn:Hta; [|by vm_compute in Hta].
  destruct (run (CallStop "news_aggregation"
                 :: [Work 0 Tick; Work 0 LoopTest] ++ [JoinReturns])
              (after news_sleeping)) as [sys1|] eqn:Hrun1;
    [|by vm_compute in Hrun1].
  destruct (tasks (state (after news_in_flight)) !! "news_aggregation")
    as [tb|] eqn:Htb; [|by vm_compute in Htb].
  destruct (run (CallStop "news_aggregation"
                 :: script_ends_in_time ++ [JoinReturns])
              (after news_in_flight)) as [sys2|] eqn:Hrun2;
    [|by vm_compute in Hrun2].
  destruct (stop_task_with_workers (after news_sleeping) "news_aggregation"
              ta [Work 0 Tick; Work 0 LoopTest] JoinReturns sys1
              eq_refl Hta ltac:(repeat constructor) (or_introl eq_refl) Hrun1)
    as (_ & _ & _ & _ & Hquiet).
  destruct Hquiet as (Ht1 & Hs1 & Hn1 & Hth1 & _).
  { intros h w Hh _. destruct h as [|h]; vm_compute in Hh;
      [by injection Hh as <-|discriminate]. }
  destruct (stop_task_with_workers (after news_in_flight) "news_aggregation"
              tb script_ends_in_time JoinReturns sys2
              eq_refl Htb ltac:(repeat constructor) (or_introl eq_refl) Hrun2)
    as (_ & _ & _ & (t2 & Ht2 & Hth2 & Hst2) & _).
  exists sys1. eexists. exists sys2, t2.
  split; [done|]. split; [exact Ht1|]. split; [exact Hs1|].
  split; [exact Hn1|]. split; [exact Hth1|]. split; [done|].
  split; [exact Ht2|]. split; [|exact Hth2].
  apply Hst2; [|repeat constructor].
  intros h w Hh _. destruct h as [|h]; vm_compute in Hh;
    [by injection Hh as <-|discriminate].
Defined.

(** *** [run_once] while worker threads take steps *)

(** The status [run_once] restores is the one the task had at the call,
    also when the worker threads take steps while the script of
    [run_once] runs. *)
Lemma run_once_status_with_workers sys task_id now t wtr o sys' :
  caller sys = Idle →
  tasks (state sys) !! task_id = Some t →
  workers_only wtr →
  run (CallRunOnce task_id now :: wtr ++ [RunOnceReturns o]) sys = Some sys' →
  ∃ t', caller sys' = Idle ∧ tasks (state sys') !! task_id = Some t' ∧
        status t' = status t.
Proof.
  intros Hc Ht Hw Hrun.
  change (step (CallRunOnce task_id now) sys
          ≫= run (wtr ++ [RunOnceReturns o]) = Some sys') in Hrun.
  destruct (step (CallRunOnce task_id now) sys) as [sys1|] eqn:Hs1; [|done].
  simpl in Hrun. rewrite run_app in Hrun.
  destruct (run wtr sys1) as [sys2|] eqn:Hs2; [|done].
  change (step (RunOnceReturns o) sys2 ≫= Some = Some sys') in Hrun.
  destruct (step (RunOnceReturns o) sys2) as [sys3|] eqn:Hs3; [|done].
  injection Hrun as <-. apply step_transition in Hs1, Hs3.
  assert (caller sys1 = InRunOnce task_id (status t) ∧
          is_Some (tasks (state sys1) !! task_id)) as Hinv1.
  { inversion Hs1; subst; simpl in *; [congruence|].
    match goal with H : tasks _ !! task_id = Some _ |- _ =>
      rewrite Ht in H; injection H as <- end.
    split; [done|]. rewrite lookup_insert_eq. by eexists. }
  pose proof (run_transitions wtr sys1 sys2 _ _
    (λ ev a b Hev Htr, work_keeps_caller ev a b task_id
                         (InRunOnce task_id (status t)) Hev Htr)
    Hw Hs2 Hinv1) as (Hc2 & Ht2).
  inversion Hs3; subst; simpl in *. injection Hc2 as -> ->.
  eexists. split; [done|]. by rewrite lookup_insert_eq.
Qed.

(** *** The length of [last_error] *)







(** * Further properties of the controller *)

(** ** The methods one call at a time *)

(** X1: whatever the status of a registered task was and however the
    script ends, a call of [run_script] leaves the task with status
    [running] (line 75 sets it and the [finally] block keeps it) and
    with [next_run] one interval after the clock of the [finally]
    block; it starts no thread and leaves the thread handle alone. *)
Theorem run_script_leaves_running script_name task_id now o now' s t :
  tasks s !! task_id = Some t →
  ∃ s' b t',
    run_script script_name task_id now o now' s = (s', Ret b) ∧
    tasks s' !! task_id = Some t' ∧
    status t' = running ∧ next_run t' = Some (now' + interval t) ∧
    thread t' = thread t ∧ threads s' = threads s.
Proof.
  intros Hreg. eexists _, _, _.
  split; [by apply run_script_known|]. split; [apply lookup_put|].
  destruct (recorded_frame (set_status running (set_last_run (Some now) t)) o)
    as (_ & _ & _ & Hs & _ & _ & _ & Hth).
  unfold after_run_script. simpl. by rewrite Hs, Hth.
Qed.

(** A task that was never started is shown as running after its script
    has been run this way. *)
Lemma run_script_leaves_running_witness :
  ∃ t s' b t',
    tasks (init 0) !! "market_analysis" = Some t ∧ status t = stopped ∧
    run_script "advanced_analysis.py" "market_analysis" 1 exits_ok 2 (init 0)
    = (s', Ret b) ∧
    tasks s' !! "market_analysis" = Some t' ∧
    status t' = running ∧ thread t' = None.
Proof.
  eexists.
  edestruct (run_script_leaves_running "advanced_analysis.py"
               "market_analysis" 1 exits_ok 2 (init 0))
    as (s' & b & t' & Hrun & Ht' & Hs & _ & Hth & _);
    [vm_compute; reflexivity|].
  exists s', b, t'. split; [vm_compute; reflexivity|].
  split; [reflexivity|]. split; [exact Hrun|]. split; [exact Ht'|].
  split; [exact Hs|exact Hth].
Defined.

(** [run_script_unknown] on a controller as [__init__] leaves it, for
    an id that holds a single quote: the text of the [KeyError] has
    the id between double quotes. *)
Lemma run_script_unknown_witness :
  tasks (init 0) !! "ann's" = None ∧
  run_script "main.py" "ann's" 1 exits_ok 2 (init 0)
  = (init 0,
     Raise (Exception
              (String double_quote ("ann's" +:+ String double_quote "")))).
Proof.
  assert (tasks (init 0) !! "ann's" = None) as Hno by (vm_compute; reflexivity).
  split; [exact Hno|].
  exact (run_script_unknown "main.py" "ann's" 1 exits_ok 2 (init 0) Hno).
Defined.

(** X3: a call of [run_once] on a registered task never raises and
    returns [True] exactly when the script exits with code 0. It sets
    [last_run] to the clock of the call. On exit code 0 [success_count]
    grows by one, [last_error] is cleared and [error_count] stays; in
    every other case [error_count] grows by one, [success_count] stays
    and [last_error] is a text of at most 200 characters: the head of
    the error output (["Unknown error"] when it is empty), the text
    ["Script timed out after 10 minutes"], or the head of the exception
    text. *)
Theorem run_once_outcomes task_id now o s t :
  tasks s !! task_id = Some t →
  ∃ t',
    run_once task_id now o s = (put task_id t' s, Ret (succeeded o)) ∧
    last_run t' = Some now ∧
    (succeeded o = true ↔ ∃ p, o = Completes p ∧ returncode p = 0) ∧
    (succeeded o = true →
       success_count t' = success_count t + 1 ∧
       error_count t' = error_count t ∧ last_error t' = None) ∧
    (succeeded o = false →
       error_count t' = error_count t + 1 ∧
       success_count t' = success_count t ∧
       ∃ msg, last_error t' = Some msg ∧ (String.length msg ≤ 200)%nat ∧
         msg = match o with
               | Completes p =>
                   if truthy (stderr p) then slice_to 200 (stderr p)
                   else "Unknown error"
               | Raises (TimeoutExpired _) =>
                   "Script timed out after 10 minutes"
               | Raises (Exception text) => slice_to 200 text
               end).
Proof.
  intros Hreg. exists (after_run_once t now o).
  split; [by apply run_once_known|].
  destruct (recorded_frame (set_last_run (Some now) t) o)
    as (_ & _ & _ & _ & Hlr & _).
  split; [unfold after_run_once; simpl; by rewrite Hlr|].
  split.
  { destruct o as [p|e]; simpl.
    - rewrite bool_decide_eq_true. split; [by exists p|].
      by intros (p' & [= <-] & Hrc).
    - split; [done|]. by intros (p & Hp & _). }
  unfold after_run_once, succeeded. destruct o as [p|[m|m]]; simpl.
  - case_bool_decide; simpl.
    + split; [by intros _|done].
    + split; [done|]. intros _. repeat split; try done.
      eexists. split; [done|]. split; [|done].
      destruct (truthy (stderr p)); [apply slice_to_bound|simpl; lia].
  - split; [done|]. intros _. repeat split; try done.
    eexists. split; [done|]. split; [simpl; lia|done].
  - split; [done|]. intros _. repeat split; try done.
    eexists. split; [done|]. split; [apply slice_to_bound|done].
Qed.

(** A successful run clears the error of an earlier failure. *)
Lemma run_once_outcomes_witness :
  ∃ t t',
    tasks (exec (run_once "news_aggregation" 1
                   (Raises (Exception "no network"))) (init 0))
      !! "news_aggregation" = Some t ∧
    last_error t = Some "no network" ∧
    run_once "news_aggregation" 2 exits_ok
      (exec (run_once "news_aggregation" 1
               (Raises (Exception "no network"))) (init 0))
    = (put "news_aggregation" t'
         (exec (run_once "news_aggregation" 1
                  (Raises (Exception "no network"))) (init 0)),
       Ret true) ∧
    last_error t' = None ∧ success_count t' = 1 ∧ error_count t' = 1.
Proof.
  eexists.
  edestruct (run_once_outcomes "news_aggregation" 2 exits_ok
               (exec (run_once "news_aggregation" 1
                        (Raises (Exception "no network"))) (init 0)))
    as (t' & Hrun & _ & _ & Hok & _); [vm_compute; reflexivity|].
  destruct (Hok eq_refl) as (Hs & He & Hl).
  exists t'. split; [vm_compute; reflexivity|]. split; [reflexivity|].
  split; [exact Hrun|]. split; [exact Hl|]. split; [exact Hs|exact He].
Defined.

(** X4: [start_task] on a registered task that is not running, when the
    thread can be started, returns [True], starts exactly one thread,
    for this task and at the test of the worker loop, stores its handle,
    sets the status to [running] and [next_run] one interval after the
    clock. Nothing else changes: the counters, [last_run] and an old
    [last_error] stay as they were. *)
Theorem start_task_starts_one_thread task_id now s t :
  tasks s !! task_id = Some t →
  status t ≠ running →
  ∃ s' t',
    start_task task_id now None s = (s', Ret true) ∧
    threads s' = threads s ++ [mkWorker task_id AtLoop] ∧
    tasks s' = <[task_id := t']> (tasks s) ∧
    status t' = running ∧ thread t' = Some (length (threads s)) ∧
    next_run t' = Some (now + interval t) ∧
    success_count t' = success_count t ∧ error_count t' = error_count t ∧
    last_run t' = last_run t ∧ last_error t' = last_error t ∧
    name t' = name t ∧ script t' = script t ∧ interval t' = interval t.
Proof.
  intros Hreg Hs. eexists _, _.
  split; [by apply start_task_spawned|]. by repeat split.
Qed.

(** A task that failed earlier is started: the old error text stays. *)
Lemma start_task_starts_one_thread_witness :
  ∃ t s' t',
    tasks (exec (run_once "news_aggregation" 1
                   (Raises (Exception "no network"))) (init 0))
      !! "news_aggregation" = Some t ∧
    start_task "news_aggregation" 5 None
      (exec (run_once "news_aggregation" 1
               (Raises (Exception "no network"))) (init 0))
    = (s', Ret true) ∧
    threads s' = [mkWorker "news_aggregation" AtLoop] ∧
    tasks s' !! "news_aggregation" = Some t' ∧
    status t' = running ∧ thread t' = Some 0%nat ∧
    last_error t' = Some "no network".
Proof.
  eexists.
  edestruct (start_task_starts_one_thread "news_aggregation" 5
               (exec (run_once "news_aggregation" 1
                        (Raises (Exception "no network"))) (init 0)))
    as (s' & t' & Hrun & Hth & Htasks & Hs & Hh & _ & _ & _ & _ & Hle & _);
    [vm_compute; reflexivity|discriminate|].
  exists s', t'. split; [vm_compute; reflexivity|]. split; [exact Hrun|].
  split; [exact Hth|]. split; [rewrite Htasks; apply lookup_insert_eq|].
  split; [exact Hs|]. split; [exact Hh|]. rewrite Hle. reflexivity.
Defined.

(** X5: when the thread cannot be started, [start_task] on a registered
    task that is not running returns [False] and starts no thread; the
    status is [error], [last_error] is the text of the exception, the
    thread handle is as before, and [next_run] keeps the time that was
    set before the thread start was tried. *)
Theorem start_task_thread_failure task_id now msg s t :
  tasks s !! task_id = Some t →
  status t ≠ running →
  ∃ s' t',
    start_task task_id now (Some msg) s = (s', Ret false) ∧
    threads s' = threads s ∧
    tasks s' = <[task_id := t']> (tasks s) ∧
    status t' = error ∧ last_error t' = Some msg ∧
    thread t' = thread t ∧ next_run t' = Some (now + interval t) ∧
    success_count t' = success_count t ∧ error_count t' = error_count t.
Proof.
  intros Hreg Hs. eexists _, _.
  split; [by apply start_task_failed|]. by repeat split.
Qed.

Lemma start_task_thread_failure_witness :
  ∃ t s' t',
    tasks (init 0) !! "news_aggregation" = Some t ∧
    start_task "news_aggregation" 5 (Some "can't start new thread") (init 0)
    = (s', Ret false) ∧
    threads s' = [] ∧
    tasks s' !! "news_aggregation" = Some t' ∧
    status t' = error ∧ next_run t' = Some 1805 ∧ error_count t' = 0.
Proof.
  eexists.
  edestruct (start_task_thread_failure "news_aggregation" 5
               "can't start new thread" (init 0))
    as (s' & t' & Hrun & Hth & Htasks & Hs & _ & _ & Hn & _ & He);
    [vm_compute; reflexivity|discriminate|].
  exists s', t'. split; [vm_compute; reflexivity|]. split; [exact Hrun|].
  split; [exact Hth|]. split; [rewrite Htasks; apply lookup_insert_eq|].
  split; [exact Hs|]. split; [exact Hn|exact He].
Defined.

(** X6: [stop_task] right after [start_task] leaves in the table the
    entry as [stop_task] alone would have left it, whether the task was
    running before or not; for a task that was stopped, with no
    [next_run] and no handle, the table is back where it was. The
    thread that was started is still there, at the test of its loop,
    and its first step ends it without a run of the script. A second
    [stop_task] changes nothing. *)
Theorem start_then_stop task_id now s t :
  tasks s !! task_id = Some t →
  let s1 := exec (start_task task_id now None) s in
  let s2 := exec (stop_task task_id) s1 in
  tasks s2 = <[task_id := stopped_entry t]> (tasks s) ∧
  (status t = stopped → next_run t = None → thread t = None →
     tasks s2 = tasks s) ∧
  (status t ≠ running →
     threads s2 = threads s ++ [mkWorker task_id AtLoop] ∧
     worker_step (length (threads s)) LoopTest s2
     = Some (set_pc (length (threads s)) Exited s2) ∧
     ∀ now', worker_step (length (threads s)) (Enter now') s2 = None) ∧
  exec (stop_task task_id) s2 = s2.
Proof.
  intros Hreg s1 s2.
  assert (∃ t1, tasks s1 !! task_id = Some t1 ∧
                stopped_entry t1 = stopped_entry t ∧
                tasks s1 = <[task_id := t1]> (tasks s) ∧
                is_running s1 = is_running s ∧ start_time s1 = start_time s ∧
                (status t ≠ running →
                 threads s1 = threads s ++ [mkWorker task_id AtLoop]))
    as (t1 & Ht1 & Hst & Htasks1 & Hir & Hstart & Hth1).
  { unfold s1, exec. destruct (decide (status t = running)) as [Hs|Hs].
    - rewrite (start_task_running _ _ _ Hreg _ _ Hs). simpl.
      exists t. split; [done|]. split; [done|].
      split; [by rewrite insert_id|]. done.
    - rewrite (start_task_spawned _ _ _ Hreg _ Hs). simpl.
      eexists. split; [apply lookup_insert_eq|]. by repeat split. }
  assert (s2 = put task_id (stopped_entry t) s1) as Hs2.
  { unfold s2, exec. rewrite (stop_task_known _ _ _ Ht1). simpl.
    unfold stopped_entry in Hst. by rewrite Hst. }
  assert (tasks s2 = <[task_id := stopped_entry t]> (tasks s)) as Htasks2.
  { rewrite Hs2. simpl. by rewrite Htasks1, insert_insert_eq. }
  split; [done|]. split; [|split].
  - intros Hs Hn Hth. rewrite Htasks2. apply insert_id. rewrite Hreg.
    f_equal. destruct t. simpl in *. by subst.
  - intros Hs. rewrite Hs2. simpl. rewrite (Hth1 Hs).
    split; [done|]. unfold worker_step. simpl. rewrite (Hth1 Hs).
    rewrite (list_lookup_middle _ [] _ _ eq_refl). simpl.
    rewrite lookup_insert_eq. simpl. split; [done|]. done.
  - unfold exec. rewrite Hs2.
    rewrite (stop_task_known _ _ _ (lookup_put _ _ _)). simpl.
    by rewrite put_put.
Qed.

Lemma start_then_stop_witness :
  ∃ t,
    tasks (init 0) !! "news_aggregation" = Some t ∧
    tasks (exec (stop_task "news_aggregation")
             (exec (start_task "news_aggregation" 5 None) (init 0)))
    = tasks (init 0).
Proof.
  eexists.
  edestruct (start_then_stop "news_aggregation" 5 (init 0))
    as (_ & Hback & _); [vm_compute; reflexivity|].
  split; [vm_compute; reflexivity|].
  apply Hback; reflexivity.
Defined.

(** ** [stop_all_tasks] and [start_all_tasks] *)

Lemma stopped_entry_idemp t : stopped_entry (stopped_entry t) = stopped_entry t.
Proof. done. Qed.

Lemma elem_of_keys s task_id : task_id ∈ keys s ↔ is_Some (tasks s !! task_id).
Proof.
  unfold keys, items. rewrite list_elem_of_fmap. split.
  - intros ([j t] & -> & Hin). apply elem_of_map_to_list in Hin. by eexists.
  - intros [t Ht]. exists (task_id, t). split; [done|].
    by apply elem_of_map_to_list.
Qed.

Lemma NoDup_keys s : NoDup (keys s).
Proof. apply NoDup_fst_map_to_list. Qed.

Lemma stop_task_run task_id s :
  ∃ s' b,
    stop_task task_id s = (s', Ret b) ∧
    threads s' = threads s ∧ is_running s' = is_running s ∧
    start_time s' = start_time s ∧
    ∀ j, tasks s' !! j
         = if decide (j = task_id) then stopped_entry <$> tasks s !! j
           else tasks s !! j.
Proof.
  destruct (tasks s !! task_id) as [t|] eqn:Ht.
  - eexists _, _. split; [by apply stop_task_known|].
    split; [done|]. split; [done|]. split; [done|].
    intros j. simpl. rewrite lookup_insert. case_decide as Hd.
    + subst j. rewrite decide_True by done. by rewrite Ht.
    + by rewrite decide_False by done.
  - exists s, false. split.
    { unfold stop_task. by rewrite (run_contains_not _ _ _ Ht). }
    split; [done|]. split; [done|]. split; [done|].
    intros j. case_decide as Hd; [|done]. subst j. by rewrite Ht.
Qed.

Lemma stop_each_run ids s :
  ∃ s',
    stop_each ids s = (s', Ret tt) ∧
    threads s' = threads s ∧ is_running s' = is_running s ∧
    start_time s' = start_time s ∧
    ∀ j, tasks s' !! j
         = if decide (j ∈ ids) then stopped_entry <$> tasks s !! j
           else tasks s !! j.
Proof.
  revert s. induction ids as [|task_id ids IH]; intros s.
  - exists s. split; [done|]. split; [done|]. split; [done|]. split; [done|].
    intros j. rewrite decide_False; [done|]. apply not_elem_of_nil.
  - destruct (stop_task_run task_id s) as (s1 & b & Hrun & Hth & Hir & Hst & Hl).
    destruct (IH s1) as (s' & Hrun' & Hth' & Hir' & Hst' & Hl').
    exists s'. split.
    { simpl. by rewrite (run_bind _ _ _ _ _ Hrun). }
    split; [congruence|]. split; [congruence|]. split; [congruence|].
    intros j. rewrite Hl', Hl.
    destruct (decide (j = task_id)) as [->|Hne].
    + rewrite (decide_True (P := task_id ∈ task_id :: ids))
        by apply list_elem_of_here.
      case_decide; [|done].
      destruct (tasks s !! task_id); [|done]. simpl.
      by rewrite stopped_entry_idemp.
    + destruct (decide (j ∈ ids)) as [Hin|Hin].
      * by rewrite decide_True by (by apply list_elem_of_further).
      * rewrite decide_False; [done|].
        intros [?|?]%elem_of_cons; done.
Qed.

(** X7: [stop_all_tasks] never raises. It sets [is_running] to [False]
    and leaves every task of the table with status [stopped], no
    [next_run] and no thread handle; the counters, [last_run],
    [last_error] and the job descriptions are untouched, no id is added
    or removed, and the threads of the process are not touched. *)
Theorem stop_all_tasks_stops_all s :
  ∃ s',
    stop_all_tasks s = (s', Ret tt) ∧
    is_running s' = false ∧
    threads s' = threads s ∧ start_time s' = start_time s ∧
    tasks s' = stopped_entry <$> tasks s ∧
    ∀ task_id t', tasks s' !! task_id = Some t' →
      status t' = stopped ∧ next_run t' = None ∧ thread t' = None ∧
      ∃ t, tasks s !! task_id = Some t ∧
        success_count t' = success_count t ∧ error_count t' = error_count t ∧
        last_run t' = last_run t ∧ last_error t' = last_error t ∧
        name t' = name t ∧ script t' = script t ∧ interval t' = interval t.
Proof.
  destruct (stop_each_run (keys (set_is_running false s))
              (set_is_running false s))
    as (s' & Hrun & Hth & Hir & Hst & Hl).
  assert (tasks s' = stopped_entry <$> tasks s) as Htasks.
  { apply map_eq. intros j. rewrite Hl, lookup_fmap. simpl.
    case_decide as Hd; [done|].
    destruct (tasks s !! j) as [t|] eqn:Ht; [|done].
    destruct Hd. apply elem_of_keys. simpl. by rewrite Ht. }
  exists s'. split.
  { unfold stop_all_tasks, assign_is_running, reads.
    unfold mbind at 1, M_bind at 1. unfold mbind at 1, M_bind at 1.
    exact Hrun. }
  split; [done|]. split; [done|]. split; [done|]. split; [done|].
  intros task_id t' Ht'. rewrite Htasks, lookup_fmap in Ht'.
  destruct (tasks s !! task_id) as [t|] eqn:Ht; [|done].
  injection Ht' as <-. repeat split. by exists t.
Qed.

Lemma start_task_total task_id now spawn s :
  ∃ s' b,
    start_task task_id now spawn s = (s', Ret b) ∧
    is_running s' = is_running s ∧ start_time s' = start_time s ∧
    (∃ l, threads s' = threads s ++ l) ∧
    (∀ j, j ≠ task_id → tasks s' !! j = tasks s !! j) ∧
    (tasks s !! task_id = None → tasks s' !! task_id = None) ∧
    ∀ t, tasks s !! task_id = Some t →
      ∃ t', tasks s' !! task_id = Some t' ∧
        started_as task_id now spawn s t s' t'.
Proof.
  destruct (tasks s !! task_id) as [t|] eqn:Ht.
  - destruct (decide (status t = running)) as [Hs|Hs].
    + exists s, true. split; [by apply (start_task_running _ _ t)|].
      repeat split; try done. { exists []. by rewrite app_nil_r. }
      intros t0 [= <-]. exists t. split; [done|]. by repeat split.
    + destruct spawn as [msg|].
      * eexists _, _. split; [by apply start_task_failed|]. simpl.
        repeat split; try done.
        { exists []. by rewrite app_nil_r. }
        { intros j Hj. by rewrite lookup_insert_ne. }
        intros t0 [= <-]. eexists. split; [apply lookup_insert_eq|].
        split; [done|]. split; [done|]. by intros _ msg' [= <-].
      * eexists _, _. split; [by apply start_task_spawned|]. simpl.
        repeat split; try done.
        { by eexists. }
        { intros j Hj. by rewrite lookup_insert_ne. }
        intros t0 [= <-]. eexists. split; [apply lookup_insert_eq|].
        split; [done|]. split; [|done]. intros _ _. simpl.
        split; [done|]. split; [done|]. eexists. split; [done|].
        split; [done|]. by apply list_lookup_middle.
  - exists s, false. split.
    { unfold start_task. by rewrite (run_contains_not _ _ _ Ht). }
    repeat split; try done. exists []. by rewrite app_nil_r.
Qed.

Lemma started_as_later task_id now spawn s t s1 t' s' l :
  started_as task_id now spawn s t s1 t' →
  threads s' = threads s1 ++ l →
  started_as task_id now spawn s t s' t'.
Proof.
  intros (H1 & H2 & H3) Hth. split; [done|]. split; [|done].
  intros Hs Hsp. destruct (H2 Hs Hsp) as (? & ? & h & ? & ? & Hh).
  split; [done|]. split; [done|]. exists h. split; [done|]. split; [done|].
  rewrite Hth. by apply lookup_app_l_Some.
Qed.

Lemma started_as_earlier task_id now spawn s0 s t s' t' l :
  started_as task_id now spawn s t s' t' →
  threads s = threads s0 ++ l →
  started_as task_id now spawn s0 t s' t'.
Proof.
  intros (H1 & H2 & H3) Hth. split; [done|]. split; [|done].
  intros Hs Hsp. destruct (H2 Hs Hsp) as (? & ? & h & ? & Hle & Hh).
  split; [done|]. split; [done|]. exists h. split; [done|]. split; [|done].
  rewrite Hth, length_app in Hle. lia.
Qed.

Lemma start_each_run ids now spawn :
  NoDup ids → ∀ s,
  ∃ s',
    start_each ids now spawn s = (s', Ret tt) ∧
    is_running s' = is_running s ∧ start_time s' = start_time s ∧
    (∃ l, threads s' = threads s ++ l) ∧
    (∀ j, j ∉ ids → tasks s' !! j = tasks s !! j) ∧
    (∀ j, tasks s !! j = None → tasks s' !! j = None) ∧
    ∀ task_id t, task_id ∈ ids → tasks s !! task_id = Some t →
      ∃ t', tasks s' !! task_id = Some t' ∧
        started_as task_id (now task_id) (spawn task_id) s t s' t'.
Proof.
  induction 1 as [|task_id ids Hnotin Hnodup IH]; intros s.
  - exists s. repeat split; try done.
    + exists []. by rewrite app_nil_r.
    + intros task_id t Hin. by apply elem_of_nil in Hin.
  - destruct (start_task_total task_id (now task_id) (spawn task_id) s)
      as (s1 & b & Hrun & Hir & Hst & [l1 Hth] & Hother & Hnone & Hentry).
    destruct (IH s1) as (s' & Hrun' & Hir' & Hst' & [l2 Hth'] & Hother'
                          & Hnone' & Hentry').
    exists s'. split.
    { simpl. by rewrite (run_bind _ _ _ _ _ Hrun). }
    split; [congruence|]. split; [congruence|]. split.
    { exists (l1 ++ l2). by rewrite Hth', Hth, app_assoc. }
    split; [|split].
    + intros j Hj. rewrite Hother'.
      * apply Hother. intros ->. apply Hj. apply list_elem_of_here.
      * intros Hin. apply Hj. by apply list_elem_of_further.
    + intros j Hj. apply Hnone'.
      destruct (decide (j = task_id)) as [->|Hne]; [by apply Hnone|].
      by rewrite Hother.
    + intros j t Hin Ht. apply elem_of_cons in Hin as [->|Hin].
      * destruct (Hentry t Ht) as (t' & Ht' & Hst1).
        exists t'. split; [by rewrite Hother'|].
        by apply (started_as_later _ _ _ _ _ s1 _ _ l2).
      * assert (j ≠ task_id) as Hne by (by intros ->).
        destruct (Hentry' j t Hin) as (t' & Ht' & Hst1);
          [by rewrite Hother|].
        exists t'. split; [done|].
        by apply (started_as_earlier _ _ _ s s1 _ _ _ l1).
Qed.

(** X8: [start_all_tasks] never raises and goes through the whole table
    whatever happens to a single task. It sets [is_running] to [True],
    adds and removes no id, and keeps the threads the process had. A
    task that was running is left as it was. A task that was not
    running and whose thread could be started is running, with
    [next_run] one interval after its clock and the handle of a thread
    of its own that was not there before. A task whose thread could not
    be started has status [error] and the text of the exception as
    [last_error]; the tasks after it in the table are started all the
    same. *)
Theorem start_all_tasks_starts_each now spawn s :
  ∃ s',
    start_all_tasks now spawn s = (s', Ret tt) ∧
    is_running s' = true ∧ start_time s' = start_time s ∧
    (∃ l, threads s' = threads s ++ l) ∧
    (∀ task_id, tasks s !! task_id = None → tasks s' !! task_id = None) ∧
    ∀ task_id t, tasks s !! task_id = Some t →
      ∃ t', tasks s' !! task_id = Some t' ∧
        (status t = running → t' = t) ∧
        (status t ≠ running → spawn task_id = None →
           status t' = running ∧
           next_run t' = Some (now task_id + interval t) ∧
           ∃ h, thread t' = Some h ∧ (length (threads s) ≤ h)%nat ∧
                threads s' !! h = Some (mkWorker task_id AtLoop)) ∧
        (status t ≠ running → ∀ msg, spawn task_id = Some msg →
           status t' = error ∧ last_error t' = Some msg ∧
           thread t' = thread t).
Proof.
  destruct (start_each_run (keys (set_is_running true s)) now spawn
              (NoDup_keys _) (set_is_running true s))
    as (s' & Hrun & Hir & Hst & Hth & _ & Hnone & Hentry).
  exists s'. split.
  { unfold start_all_tasks, assign_is_running, reads.
    unfold mbind at 1, M_bind at 1. unfold mbind at 1, M_bind at 1.
    exact Hrun. }
  split; [done|]. split; [done|]. split; [done|]. split; [done|].
  intros task_id t Ht. apply (Hentry task_id t); [|done].
  apply elem_of_keys. simpl. by rewrite Ht.
Qed.

(** ** The endpoints of [api.py] *)

Lemma run_once_total task_id now o s :
  ∃ s' b, run_once task_id now o s = (s', Ret b).
Proof.
  destruct (tasks s !! task_id) as [t|] eqn:Ht.
  - eexists _, _. by apply run_once_known.
  - exists s, false. unfold run_once. by rewrite (run_contains_not _ _ _ Ht).
Qed.

Lemma api_try_call str_http (m : M bool) (ok : Message) (bad pre : string)
    s s' b :
  m s = (s', Ret b) →
  api_try
    (success ← call m;
     if success : bool then mret ok
     else api_raise (HTTPException 400 bad))
    (λ e, api_raise (HTTPException 500 (pre +:+ str_api str_http e))) s
  = (s', if b then Replies ok
         else Fails (HTTPException 500 (pre +:+ str_http 400 bad))).
Proof.
  intros Hm. unfold api_try, mbind, Endpoint_bind, call. rewrite Hm.
  by destruct b.
Qed.

(** X9: the endpoints [start_automation_task], [stop_automation_task]
    and [run_task_once] with a controller available. Each leaves the
    state the controller method leaves and answers with
    [{"success": True, ...}] (status 200) when the method returned
    [True]. When the method returned [False] the [HTTPException] with
    status 400 raised at line 835 (850, 869) is caught by the
    [except Exception] that surrounds it and the response has status
    500, its detail being the prefix of the handler followed by the text
    of the caught 400 exception: no response of these endpoints has
    status 400. Without a controller each answers 503 and touches
    nothing. *)
Theorem endpoints_answer_200_or_500 str_http task_id now spawn o s :
  (∃ s' b r,
     start_task task_id now spawn s = (s', Ret b) ∧
     start_automation_task str_http true task_id now spawn s = (s', r) ∧
     r = (if b
          then Replies (mkMessage true
                 ("Task " +:+ task_id +:+ " started successfully"))
          else Fails (HTTPException 500
                 ("Error starting task: "
                  +:+ str_http 400 ("Failed to start task " +:+ task_id)))) ∧
     status_code_of r = Some (if b then 200 else 500)) ∧
  (∃ s' b r,
     stop_task task_id s = (s', Ret b) ∧
     stop_automation_task str_http true task_id s = (s', r) ∧
     r = (if b
          then Replies (mkMessage true
                 ("Task " +:+ task_id +:+ " stopped successfully"))
          else Fails (HTTPException 500
                 ("Error stopping task: "
                  +:+ str_http 400 ("Failed to stop task " +:+ task_id)))) ∧
     status_code_of r = Some (if b then 200 else 500)) ∧
  (∃ s' b r,
     run_once task_id now o s = (s', Ret b) ∧
     run_task_once str_http true task_id now o s = (s', r) ∧
     r = (if b
          then Replies (mkMessage true
                 ("Task " +:+ task_id +:+ " executed successfully"))
          else Fails (HTTPException 500
                 ("Error executing task: "
                  +:+ str_http 400 ("Failed to execute task " +:+ task_id)))) ∧
     status_code_of r = Some (if b then 200 else 500)) ∧
  (∀ r,
     r = (start_automation_task str_http false task_id now spawn s).2 ∨
     r = (stop_automation_task str_http false task_id s).2 ∨
     r = (run_task_once str_http false task_id now o s).2 →
     r = Fails (HTTPException 503 "Automation controller not available")) ∧
  (start_automation_task str_http false task_id now spawn s).1 = s ∧
  (stop_automation_task str_http false task_id s).1 = s ∧
  (run_task_once str_http false task_id now o s).1 = s.
Proof.
  split; [|split; [|split; [|split; [|done]]]].
  - destruct (start_task_total task_id now spawn s) as (s' & b & Hrun & _).
    exists s', b. eexists. split; [done|]. split.
    { unfold start_automation_task. simpl.
      apply (api_try_call str_http _ _ _ _ _ _ _ Hrun). }
    split; [done|]. by destruct b.
  - destruct (stop_task_run task_id s) as (s' & b & Hrun & _).
    exists s', b. eexists. split; [done|]. split.
    { unfold stop_automation_task. simpl.
      apply (api_try_call str_http _ _ _ _ _ _ _ Hrun). }
    split; [done|]. by destruct b.
  - destruct (run_once_total task_id now o s) as (s' & b & Hrun).
    exists s', b. eexists. split; [done|]. split.
    { unfold run_task_once. simpl.
      apply (api_try_call str_http _ _ _ _ _ _ _ Hrun). }
    split; [done|]. by destruct b.
  - by intros r [->|[->| ->]].
Qed.

(** X10: an id that is not in the table of the controller makes each
    of the three endpoints answer with status 500, not 400 or 404, and
    leaves the controller as it was. *)
Theorem endpoints_unknown_task_500 str_http task_id now spawn o s :
  tasks s !! task_id = None →
  ∃ r1 r2 r3,
    start_automation_task str_http true task_id now spawn s = (s, r1) ∧
    stop_automation_task str_http true task_id s = (s, r2) ∧
    run_task_once str_http true task_id now o s = (s, r3) ∧
    status_code_of r1 = Some 500 ∧ status_code_of r2 = Some 500 ∧
    status_code_of r3 = Some 500.
Proof.
  intros Ht.
  assert (start_task task_id now spawn s = (s, Ret false)) as H1.
  { unfold start_task. by rewrite (run_contains_not _ _ _ Ht). }
  assert (stop_task task_id s = (s, Ret false)) as H2.
  { unfold stop_task. by rewrite (run_contains_not _ _ _ Ht). }
  assert (run_once task_id now o s = (s, Ret false)) as H3.
  { unfold run_once. by rewrite (run_contains_not _ _ _ Ht). }
  eexists _, _, _.
  split; [apply (api_try_call str_http _ _ _ _ _ _ _ H1)|].
  split; [apply (api_try_call str_http _ _ _ _ _ _ _ H2)|].
  split; [apply (api_try_call str_http _ _ _ _ _ _ _ H3)|].
  done.
Qed.

Lemma endpoints_unknown_task_500_witness :
  ∃ r1 r2 r3,
    start_automation_task (λ _ detail, detail) true "backup" 5 None (init 0)
      = (init 0, r1) ∧
    stop_automation_task (λ _ detail, detail) true "backup" (init 0)
      = (init 0, r2) ∧
    run_task_once (λ _ detail, detail) true "backup" 5 exits_ok (init 0)
      = (init 0, r3) ∧
    status_code_of r1 = Some 500 ∧ status_code_of r2 = Some 500 ∧
    status_code_of r3 = Some 500.
Proof.
  apply (endpoints_unknown_task_500 (λ _ detail, detail) "backup" 5 None
           exits_ok (init 0)).
  vm_compute. reflexivity.
Defined.

(** ** The derived fields of [get_status] *)

Section StatusFields.
Variable int : string → option Z.

Lemma get_status_fields q now now' s :
  ∃ v,
    get_status int q now now' s = (s, Ret v) ∧
    scheduler_status (system_health v)
      = match running_tasks s with [] => "stopped" | _ => "running" end ∧
    update_frequency (data_stats v)
      = match running_tasks s with [] => "Manual" | _ => "5 minutes" end ∧
    latest_update (system_health v) = default now' (latest_run s) ∧
    last_data_update (data_stats v) = default now' (latest_run s) ∧
    uptime (system_health v)
      = ((now - start_time s) `div` 3600,
         ((now - start_time s) `mod` 3600) `div` 60) ∧
    database_status (system_health v)
      = (if bool_decide (0 < total_records (system_health v))
         then "connected" else "disconnected") ∧
    (total_records (system_health v), total_news_articles (data_stats v),
     coins_tracked (data_stats v)) = counts_of int q ∧
    total_price_records (data_stats v) = total_records (system_health v).
Proof.
  unfold get_status.
  rewrite (run_bind _ _ _ _ _ (query_counts_run int q s)).
  destruct (counts_of int q) as [[a b] c].
  unfold reads, mbind, M_bind, mret, M_ret. simpl.
  eexists. split; [reflexivity|]. by simpl.
Qed.

Lemma running_tasks_nil s :
  running_tasks s = [] ↔
  ∀ task_id t, tasks s !! task_id = Some t → status t ≠ running.
Proof.
  unfold running_tasks, items. split.
  - intros Hnil task_id t Ht Hs.
    assert (t ∈ filter (λ t, status t = running) (map_to_list (tasks s)).*2)
      as Hin.
    { apply list_elem_of_filter. split; [done|].
      apply list_elem_of_fmap. exists (task_id, t). split; [done|].
      by apply elem_of_map_to_list. }
    rewrite Hnil in Hin. by apply elem_of_nil in Hin.
  - intros Hall.
    destruct (filter _ _) as [|t l] eqn:Hf; [done|].
    assert (t ∈ filter (λ t, status t = running) (map_to_list (tasks s)).*2)
      as Hin by (rewrite Hf; apply list_elem_of_here).
    apply list_elem_of_filter in Hin as [Hs Hin].
    apply list_elem_of_fmap in Hin as ([task_id t'] & -> & Hin).
    apply elem_of_map_to_list in Hin. by destruct (Hall _ _ Hin).
Qed.

(** X11: [get_status] reports the scheduler as ["running"] and the
    update frequency as ["5 minutes"] exactly when some task of the
    table has status [running], whatever the interval of that task;
    otherwise, also when tasks have status [error], it reports
    ["stopped"] and ["Manual"]. The flag [is_running] plays no part. *)
Theorem get_status_scheduler q now now' s :
  ∃ v,
    get_status int q now now' s = (s, Ret v) ∧
    ((∃ task_id t, tasks s !! task_id = Some t ∧ status t = running) →
       scheduler_status (system_health v) = "running" ∧
       update_frequency (data_stats v) = "5 minutes") ∧
    ((∀ task_id t, tasks s !! task_id = Some t → status t ≠ running) →
       scheduler_status (system_health v) = "stopped" ∧
       update_frequency (data_stats v) = "Manual").
Proof.
  destruct (get_status_fields q now now' s)
    as (v & Hrun & Hsched & Hfreq & _).
  exists v. split; [done|]. rewrite Hsched, Hfreq. split.
  - intros (task_id & t & Ht & Hs).
    destruct (running_tasks s) eqn:Hr; [|done].
    by destruct (proj1 (running_tasks_nil s) Hr _ _ Ht).
  - intros Hall. by rewrite (proj2 (running_tasks_nil s) Hall).
Qed.

Lemma latest_fold (l : list Task) (acc : option Z) :
  match
    foldl
      (λ latest_update t,
         match last_run t with
         | Some r =>
             match latest_update with
             | None => Some r
             | Some l => if bool_decide (l < r) then Some r else Some l
             end
         | None => latest_update
         end)
      acc l
  with
  | None => acc = None ∧ ∀ t, t ∈ l → last_run t = None
  | Some m =>
      (acc = Some m ∨ ∃ t, t ∈ l ∧ last_run t = Some m) ∧
      (∀ a, acc = Some a → a ≤ m) ∧
      ∀ t r, t ∈ l → last_run t = Some r → r ≤ m
  end.
Proof.
  revert acc. induction l as [|t l IH]; intros acc.
  - simpl. destruct acc as [a|].
    + split; [by left|]. split; [by intros ? [= ->]|].
      intros t r Hin. by apply elem_of_nil in Hin.
    + split; [done|]. intros t Hin. by apply elem_of_nil in Hin.
  - simpl. set (acc' := match last_run t with Some _ => _ | None => _ end).
    specialize (IH acc'). destruct (foldl _ acc' l) as [m|].
    + destruct IH as (Hsrc & Hge & Hall).
      assert (∀ r, last_run t = Some r → acc' ≠ None ∧
                ∀ a', acc' = Some a' → r ≤ a' ∧
                  (∀ a, acc = Some a → a ≤ a') ∧
                  (acc = Some a' ∨ last_run t = Some a')) as Hsome.
      { intros r Hr. subst acc'. rewrite Hr. destruct acc as [a|].
        - case_bool_decide; (split; [done|]); intros a' [= <-].
          + split; [lia|]. split; [|by right]. intros ? [= ->]. lia.
          + split; [lia|]. split; [|by left]. by intros ? [= ->].
        - split; [done|]. intros a' [= <-]. split; [lia|]. split; [done|].
          by right. }
      assert (last_run t = None → acc' = acc) as Hnone.
      { intros Hr. subst acc'. by rewrite Hr. }
      split; [|split].
      * destruct Hsrc as [Hacc|(t' & Hin & Ht')].
        -- destruct (last_run t) as [r|] eqn:Hr.
           ++ destruct (Hsome r eq_refl) as [_ Hs].
              destruct (Hs m Hacc) as (_ & _ & [?|?]); [by left|].
              right. exists t. split; [apply list_elem_of_here|]. congruence.
           ++ left. by rewrite <- (Hnone eq_refl).
        -- right. exists t'. split; [by apply list_elem_of_further|done].
      * intros a Ha. destruct (last_run t) as [r|] eqn:Hr.
        -- destruct (Hsome r eq_refl) as [Hne Hs].
           destruct acc' as [a'|] eqn:Hacc'; [|done].
           destruct (Hs a' eq_refl) as (_ & Hle & _).
           specialize (Hle a Ha). specialize (Hge a' eq_refl). lia.
        -- apply Hge. by rewrite (Hnone eq_refl).
      * intros t' r Hin Hr. apply elem_of_cons in Hin as [->|Hin].
        -- destruct (Hsome r Hr) as [Hne Hs].
           destruct acc' as [a'|] eqn:Hacc'; [|done].
           destruct (Hs a' eq_refl) as (Hle & _).
           specialize (Hge a' eq_refl). lia.
        -- by apply (Hall t').
    + destruct IH as (Hacc & Hall).
      destruct (last_run t) as [r|] eqn:Hr.
      * subst acc'. by destruct acc; [case_bool_decide|].
      * subst acc'. split; [done|].
        intros t' Hin. apply elem_of_cons in Hin as [->|Hin]; [done|].
        by apply Hall.
Qed.

(** X12: the time [get_status] reports as [latest_update] and as
    [last_data_update] is the same, and it is the latest [last_run] of
    the table: the [last_run] of some task and not earlier than the
    [last_run] of any task. When no task has run, it is the clock read
    at line 287. *)
Theorem get_status_latest_update q now now' s :
  ∃ v,
    get_status int q now now' s = (s, Ret v) ∧
    last_data_update (data_stats v) = latest_update (system_health v) ∧
    ((∀ task_id t, tasks s !! task_id = Some t → last_run t = None) →
       latest_update (system_health v) = now') ∧
    ((∃ task_id t, tasks s !! task_id = Some t ∧ is_Some (last_run t)) →
       (∃ task_id t, tasks s !! task_id = Some t ∧
          last_run t = Some (latest_update (system_health v))) ∧
       ∀ task_id t r, tasks s !! task_id = Some t → last_run t = Some r →
         r ≤ latest_update (system_health v)).
Proof.
  destruct (get_status_fields q now now' s)
    as (v & Hrun & _ & _ & Hlatest & Hlast & _).
  exists v. split; [done|]. rewrite Hlast, Hlatest. split; [done|].
  assert (∀ t, t ∈ (items s).*2 ↔ ∃ task_id, tasks s !! task_id = Some t)
    as Hitems.
  { intros t. unfold items. rewrite list_elem_of_fmap. split.
    - intros ([task_id t'] & -> & Hin). exists task_id.
      by apply elem_of_map_to_list in Hin.
    - intros [task_id Ht]. exists (task_id, t). split; [done|].
      by apply elem_of_map_to_list. }
  pose proof (latest_fold (items s).*2 None) as Hfold.
  fold (latest_run s) in Hfold.
  destruct (latest_run s) as [m|]; simpl.
  - destruct Hfold as ([?|(t & Hin & Ht)] & _ & Hall); [done|]. split.
    + intros Hnone. apply Hitems in Hin as [task_id Hreg].
      specialize (Hnone _ _ Hreg). congruence.
    + intros _. split.
      * apply Hitems in Hin as [task_id Hreg]. by exists task_id, t.
      * intros task_id t' r Hreg Hr. apply (Hall t'); [|done].
        apply Hitems. by exists task_id.
  - destruct Hfold as [_ Hall]. split; [done|].
    intros (task_id & t & Hreg & [r Hr]).
    rewrite (Hall t) in Hr; [done|]. apply Hitems. by exists task_id.
Qed.

(** X13: the uptime [get_status] reports is the time since
    [start_time] in whole hours and whole minutes: the minutes are
    between 0 and 59 and the seconds not accounted for are between 0
    and 59, also when the clock is behind [start_time]. *)
Theorem get_status_uptime q now now' s :
  ∃ v,
    get_status int q now now' s = (s, Ret v) ∧
    0 ≤ (uptime (system_health v)).2 < 60 ∧
    0 ≤ now - start_time s
        - (3600 * (uptime (system_health v)).1
           + 60 * (uptime (system_health v)).2) < 60 ∧
    (start_time s ≤ now → 0 ≤ (uptime (system_health v)).1) ∧
    (now < start_time s → (uptime (system_health v)).1 < 0).
Proof.
  destruct (get_status_fields q now now' s)
    as (v & Hrun & _ & _ & _ & _ & Hup & _).
  exists v. split; [done|]. rewrite Hup. simpl.
  set (d := now - start_time s).
  pose proof (Z.div_mod d 3600 ltac:(lia)) as H1.
  pose proof (Z.mod_pos_bound d 3600 ltac:(lia)) as H2.
  pose proof (Z.div_mod (d `mod` 3600) 60 ltac:(lia)) as H3.
  pose proof (Z.mod_pos_bound (d `mod` 3600) 60 ltac:(lia)) as H4.
  assert (0 ≤ (d `mod` 3600) `div` 60 < 60) as H5.
  { split; [apply Z.div_pos; lia|]. apply Z.div_lt_upper_bound; lia. }
  split; [done|]. split; [lia|]. split.
  - intros Hle. apply Z.div_pos; lia.
  - intros Hlt. apply Z.div_lt_upper_bound; lia.
Qed.

(** X14: the database is reported as connected exactly when the count
    of price records is positive. A query that raises, exits with an
    error code or prints a field that is not an integer gives
    ["disconnected"]; so does a query that succeeds on an empty
    table. *)
Theorem get_status_database_status q now now' s :
  ∃ v,
    get_status int q now now' s = (s, Ret v) ∧
    (database_status (system_health v) = "connected" ↔
       0 < total_records (system_health v)) ∧
    (database_status (system_health v) = "disconnected" ↔
       total_records (system_health v) ≤ 0) ∧
    (query_rejected int q →
       database_status (system_health v) = "disconnected") ∧
    total_records (system_health v) = (counts_of int q).1.1.
Proof.
  destruct (get_status_fields q now now' s)
    as (v & Hrun & _ & _ & _ & _ & _ & Hdb & Hcounts & _).
  exists v. split; [done|]. rewrite Hdb.
  split; [|split; [|split]].
  - case_bool_decide; split; intros; (done || lia).
  - case_bool_decide; split; intros; (done || lia).
  - intros Hrej. apply counts_of_rejected in Hrej. rewrite Hrej in Hcounts.
    injection Hcounts as -> _ _. done.
  - by rewrite <- Hcounts.
Qed.
End StatusFields.

(** ** What the query script prints is what [get_status] reads *)

Lemma digit_of_pretty_N_char d :
  (d < 10)%N → digit_of (pretty_N_char d) = Some (Z.of_N d).
Proof.
  intros Hd.
  do 10 (destruct d as [|d] using N.peano_ind; [done|]). lia.
Qed.

Lemma digits_from_pretty_N_go x :
  ∃ k, ∀ s acc,
    digits_from acc (pretty_N_go x s) = digits_from (acc * k + Z.of_N x) s.
Proof.
  induction (N.lt_wf_0 x) as [x _ IH].
  destruct (decide (0 < x)%N) as [Hx|Hx].
  - destruct (IH (x `div` 10)%N) as [k Hk]; [by apply N.div_lt|].
    exists (10 * k). intros s acc.
    rewrite pretty_N_go_step, Hk by done. simpl.
    rewrite digit_of_pretty_N_char by (by apply N.mod_lt).
    f_equal. rewrite (N.div_mod x 10) at 3 by done.
    rewrite N2Z.inj_add, N2Z.inj_mul. simpl. lia.
  - assert (x = 0%N) as -> by lia. exists 1. intros s acc.
    rewrite pretty_N_go_0. f_equal. simpl. lia.
Qed.

Lemma pretty_N_go_head x s :
  (0 < x)%N →
  ∃ d s', (d < 10)%N ∧ pretty_N_go x s = String (pretty_N_char d) s'.
Proof.
  revert s. induction (N.lt_wf_0 x) as [x _ IH]. intros s Hx.
  rewrite pretty_N_go_step by done.
  destruct (decide (0 < x `div` 10)%N) as [Hd|Hd].
  - apply IH; [by apply N.div_lt|done].
  - assert (x `div` 10 = 0)%N as ->
      by (by apply N.le_0_r, N.nlt_ge). rewrite pretty_N_go_0.
    eexists _, _. split; [|done]. by apply N.mod_lt.
Qed.

Lemma all_chars_pretty_N_go (p : ascii → bool) x s :
  (∀ d, (d < 10)%N → p (pretty_N_char d) = true) →
  all_chars p s = true → all_chars p (pretty_N_go x s) = true.
Proof.
  intros Hp. revert s. induction (N.lt_wf_0 x) as [x _ IH]. intros s Hs.
  destruct (decide (0 < x)%N) as [Hx|Hx].
  - rewrite pretty_N_go_step by done. apply IH; [by apply N.div_lt|].
    simpl. rewrite Hp by (by apply N.mod_lt). done.
  - assert (x = 0%N) as -> by lia. by rewrite pretty_N_go_0.
Qed.

Lemma all_chars_app p s1 s2 :
  all_chars p (s1 +:+ s2) = all_chars p s1 && all_chars p s2.
Proof.
  induction s1 as [|c s1 IH]; [done|]. simpl. by rewrite IH, andb_assoc.
Qed.

Lemma is_numeral_pretty_N_char d : (d < 10)%N → is_numeral (pretty_N_char d) = true.
Proof.
  intros Hd. unfold is_numeral. by rewrite digit_of_pretty_N_char.
Qed.

Lemma str_int_numeral n : all_chars is_numeral (str_int n) = true.
Proof.
  assert (∀ p, all_chars is_numeral (pretty (N.pos p)) = true) as Hpos.
  { intros p. unfold pretty, pretty_N. rewrite decide_False by done.
    apply all_chars_pretty_N_go; [apply is_numeral_pretty_N_char|done]. }
  unfold str_int. destruct n as [|p|p]; [done|apply Hpos|].
  change (pretty (Z.neg p)) with ("-" +:+ pretty (N.pos p)).
  simpl. apply Hpos.
Qed.

Lemma is_numeral_not_space c : is_numeral c = true → is_space c = false.
Proof.
  destruct c as [[] [] [] [] [] [] [] []]; by vm_compute.
Qed.

Lemma is_numeral_not_comma c : is_numeral c = true → Ascii.eqb c "," = false.
Proof.
  destruct c as [[] [] [] [] [] [] [] []]; by vm_compute.
Qed.

Lemma rstrip_no_space s :
  all_chars (λ c, negb (is_space c)) s = true → rstrip s = s.
Proof.
  induction s as [|c s IH]; [done|]. simpl.
  intros [Hc Hs]%andb_true_iff. rewrite (IH Hs).
  apply negb_true_iff in Hc. rewrite Hc. by destruct s.
Qed.

Lemma rstrip_newline s :
  all_chars (λ c, negb (is_space c)) s = true → rstrip (s +:+ newline) = s.
Proof.
  induction s as [|c s IH]; [done|]. simpl.
  intros [Hc Hs]%andb_true_iff. rewrite (IH Hs).
  apply negb_true_iff in Hc. rewrite Hc. by destruct s.
Qed.

Lemma lstrip_no_space s :
  all_chars (λ c, negb (is_space c)) s = true → ∀ s', lstrip (s +:+ s') =
    match s with EmptyString => lstrip s' | _ => s +:+ s' end.
Proof.
  destruct s as [|c s]; [done|]. simpl.
  intros [Hc Hs]%andb_true_iff s'. apply negb_true_iff in Hc. by rewrite Hc.
Qed.

Lemma strip_no_space s :
  all_chars (λ c, negb (is_space c)) s = true → strip s = s.
Proof.
  intros Hs. unfold strip.
  assert (lstrip s = s) as ->; [|by apply rstrip_no_space].
  destruct s as [|c s]; [done|]. simpl in *.
  apply andb_true_iff in Hs as [Hc _]. apply negb_true_iff in Hc.
  by rewrite Hc.
Qed.

Lemma strip_newline s :
  all_chars (λ c, negb (is_space c)) s = true → strip (s +:+ newline) = s.
Proof.
  intros Hs. unfold strip. rewrite (lstrip_no_space _ Hs).
  destruct s as [|c s]; [done|]. by apply rstrip_newline.
Qed.

Lemma all_chars_impl (p q : ascii → bool) s :
  (∀ c, p c = true → q c = true) →
  all_chars p s = true → all_chars q s = true.
Proof.
  intros Hpq. induction s as [|c s IH]; [done|]. simpl.
  intros [Hc Hs]%andb_true_iff. by rewrite (Hpq _ Hc), (IH Hs).
Qed.

Lemma split_field sep x rest :
  all_chars (λ c, negb (Ascii.eqb c sep)) x = true →
  split sep (x +:+ String sep rest) = x :: split sep rest.
Proof.
  induction x as [|c x IH]; simpl.
  - intros _. by rewrite Ascii.eqb_refl.
  - intros [Hc Hx]%andb_true_iff. apply negb_true_iff in Hc.
    by rewrite Hc, (IH Hx).
Qed.

Lemma split_last sep x :
  all_chars (λ c, negb (Ascii.eqb c sep)) x = true → split sep x = [x].
Proof.
  induction x as [|c x IH]; simpl; [done|].
  intros [Hc Hx]%andb_true_iff. apply negb_true_iff in Hc.
  by rewrite Hc, (IH Hx).
Qed.

Lemma unsigned_decimal_pretty p :
  ∃ d s', (d < 10)%N ∧ pretty (N.pos p) = String (pretty_N_char d) s' ∧
    unsigned_decimal (pretty (N.pos p)) = Some (Z.pos p).
Proof.
  unfold pretty, pretty_N. rewrite decide_False by done.
  destruct (pretty_N_go_head (N.pos p) "") as (d & s' & Hd & Hhead); [done|].
  exists d, s'. split; [done|]. split; [done|].
  unfold unsigned_decimal.
  destruct (digits_from_pretty_N_go (N.pos p)) as [k Hk].
  rewrite Hhead, <- Hhead, Hk. simpl. f_equal.
Qed.

Lemma int_decimal_str_int n : int_decimal (str_int n) = Some n.
Proof.
  unfold int_decimal. rewrite strip_no_space.
  2:{ apply (all_chars_impl is_numeral); [|apply str_int_numeral].
      intros c Hc. by rewrite (is_numeral_not_space _ Hc). }
  unfold str_int. destruct n as [|p|p]; [done| |].
  - destruct (unsigned_decimal_pretty p) as (d & s' & Hd & Hhead & Hval).
    change (pretty (Z.pos p)) with (pretty (N.pos p)).
    rewrite Hhead in *. clear Hhead.
    do 10 (destruct d as [|d] using N.peano_ind; [exact Hval|]). lia.
  - destruct (unsigned_decimal_pretty p) as (d & s' & Hd & Hhead & Hval).
    change (pretty (Z.neg p)) with ("-" +:+ pretty (N.pos p)).
    clear Hhead. set (u := pretty (N.pos p)) in *. simpl.
    change ("" +:+ u) with u. by rewrite Hval.
Qed.

Lemma append_assoc s1 s2 s3 : (s1 +:+ s2) +:+ s3 = s1 +:+ (s2 +:+ s3).
Proof.
  induction s1 as [|ch s1 IH]; [done|].
  exact (f_equal (String ch) IH).
Qed.

Lemma split_three sep x y z :
  all_chars (λ c, negb (Ascii.eqb c sep)) x = true →
  all_chars (λ c, negb (Ascii.eqb c sep)) y = true →
  all_chars (λ c, negb (Ascii.eqb c sep)) z = true →
  split sep (x +:+ String sep (y +:+ String sep z)) = [x; y; z].
Proof.
  intros Hx Hy Hz.
  by rewrite (split_field _ _ _ Hx), (split_field _ _ _ Hy),
    (split_last _ _ Hz).
Qed.

Lemma strip_three x y z :
  all_chars (λ c, negb (is_space c)) x = true →
  all_chars (λ c, negb (is_space c)) y = true →
  all_chars (λ c, negb (is_space c)) z = true →
  strip (x +:+ "," +:+ y +:+ "," +:+ z +:+ newline)
  = x +:+ String "," (y +:+ String "," z).
Proof.
  intros Hx Hy Hz.
  assert (x +:+ "," +:+ y +:+ "," +:+ z +:+ newline
          = (x +:+ String "," (y +:+ String "," z)) +:+ newline) as ->.
  { rewrite append_assoc.
    change (String "," (y +:+ String "," z) +:+ newline)
      with (String "," ((y +:+ String "," z) +:+ newline)).
    by rewrite append_assoc. }
  apply strip_newline.
  rewrite all_chars_app, Hx. simpl. rewrite all_chars_app, Hy. simpl.
  by rewrite Hz.
Qed.

Lemma split_print_counts a b c :
  split "," (strip (print_counts a b c)) = [str_int a; str_int b; str_int c].
Proof.
  assert (∀ n, all_chars (λ c, negb (Ascii.eqb c ",")) (str_int n) = true)
    as Hcomma.
  { intros n. apply (all_chars_impl is_numeral); [|apply str_int_numeral].
    intros ch Hc. by rewrite (is_numeral_not_comma _ Hc). }
  assert (∀ n, all_chars (λ c, negb (is_space c)) (str_int n) = true)
    as Hspace.
  { intros n. apply (all_chars_impl is_numeral); [|apply str_int_numeral].
    intros ch Hc. by rewrite (is_numeral_not_space _ Hc). }
  unfold print_counts.
  rewrite (strip_three _ _ _ (Hspace a) (Hspace b) (Hspace c)).
  by apply split_three.
Qed.

(** X15: when the query script reaches its [print] at line 241 with
    the counts [a], [b] and [c] and exits with code 0, [get_status]
    reports exactly these three counts, whatever the script wrote to
    its standard error: the text printed (decimal numbers separated by
    commas, a newline at the end) is read back by [strip], [split] and
    [int] without loss, for negative numbers as well. *)
Theorem get_status_reads_what_query_prints a b c err now now' s :
  ∃ v,
    get_status int_decimal
      (Completes (mkCompleted 0 (print_counts a b c) err)) now now' s
    = (s, Ret v) ∧
    total_records (system_health v) = a ∧
    total_price_records (data_stats v) = a ∧
    total_news_articles (data_stats v) = b ∧
    coins_tracked (data_stats v) = c ∧
    well_formed int_decimal (print_counts a b c) = true.
Proof.
  destruct (get_status_fields int_decimal
              (Completes (mkCompleted 0 (print_counts a b c) err)) now now' s)
    as (v & Hrun & _ & _ & _ & _ & _ & _ & Hcounts & Hprice).
  exists v. split; [done|].
  assert (counts_of int_decimal
            (Completes (mkCompleted 0 (print_counts a b c) err)) = (a, b, c))
    as Hc.
  { unfold counts_of. simpl. rewrite split_print_counts.
    unfold count_value. simpl. by rewrite !int_decimal_str_int. }
  rewrite Hc in Hcounts. injection Hcounts as Ha Hb Hcc.
  rewrite Hprice, Ha. split; [done|]. split; [done|]. split; [done|].
  split; [done|].
  unfold well_formed. rewrite split_print_counts, !int_decimal_str_int.
  apply bool_decide_eq_true_2. by repeat split; eexists.
Qed.

(** ** What no step of the system changes *)

Lemma same_job_refl t : same_job t t.
Proof. done. Qed.

Lemma same_job_trans t1 t2 t3 : same_job t1 t2 → same_job t2 t3 → same_job t1 t3.
Proof.
  intros (?&?&?&?) (?&?&?&?). repeat split; congruence.
Qed.

Lemma same_table_refl s : same_table s s.
Proof. intros task_id. by destruct (tasks s !! task_id). Qed.

Lemma same_table_trans s1 s2 s3 :
  same_table s1 s2 → same_table s2 s3 → same_table s1 s3.
Proof.
  intros H12 H23 task_id. specialize (H12 task_id). specialize (H23 task_id).
  destruct (tasks s1 !! task_id), (tasks s2 !! task_id),
    (tasks s3 !! task_id); try done.
  by eapply same_job_trans.
Qed.

Lemma same_table_put s s' task_id t t' :
  tasks s !! task_id = Some t → same_job t t' →
  tasks s' = <[task_id := t']> (tasks s) →
  same_table s s'.
Proof.
  intros Ht Hjob Hs' j. rewrite Hs', lookup_insert. case_decide as Hd.
  - subst j. by rewrite Ht.
  - by destruct (tasks s !! j).
Qed.

Lemma transition_same_table a ev b :
  transition a ev b → same_table (state a) (state b).
Proof.
  intros Htr.
  destruct Htr as [s task_id now spawn Ht|s task_id now spawn t Ht Hs
    |s task_id now t Ht Hs|s task_id now msg t Ht Hs|s task_id Ht
    |s task_id t Ht|s task_id t Ht Hw|s task_id t Ht Hw|s task_id now Ht
    |s task_id now t Ht|s task_id orig o t Ht|s c h a w t t' pc' Hh Ht He];
    simpl; try apply same_table_refl;
    try (by eapply same_table_put; [exact Ht| |reflexivity]).
  - eapply same_table_put; [exact Ht| |reflexivity].
    by destruct (recorded_frame t o) as (?&?&?&_&_&_&?&_).
  - eapply same_table_put; [exact Ht| |reflexivity].
    by destruct (worker_effect_frame _ _ _ _ _ He) as (_&?&?&?&?).
Qed.

(** X16: no sequence of calls of [start_task], [stop_task] and
    [run_once] and of steps of worker threads, whichever way they are
    interleaved and also with joins that time out and threads that
    crash, adds an id to the table or removes one, and none changes the
    name, the script, the interval or the [process] field of a task:
    [process] stays what [__init__] made it. *)
Theorem job_descriptions_fixed tr sys sys' :
  run tr sys = Some sys' →
  ∀ task_id,
    (tasks (state sys') !! task_id = None ↔
       tasks (state sys) !! task_id = None) ∧
    ∀ t, tasks (state sys) !! task_id = Some t →
      ∃ t', tasks (state sys') !! task_id = Some t' ∧
        name t' = name t ∧ script t' = script t ∧
        interval t' = interval t ∧ process t' = process t.
Proof.
  intros Hrun.
  assert (same_table (state sys) (state sys')) as Hsame.
  { apply (run_transitions tr sys sys' (λ b, same_table (state sys) (state b))
             (λ _, True)); [|by apply Forall_true|done|apply same_table_refl].
    intros ev a b _ Htr Ha.
    eapply same_table_trans; [exact Ha|by eapply transition_same_table]. }
  intros task_id. specialize (Hsame task_id).
  destruct (tasks (state sys) !! task_id) as [t|],
    (tasks (state sys') !! task_id) as [t'|]; try done.
  split; [done|]. intros t0 [= <-]. by exists t'.
Qed.

Lemma job_descriptions_fixed_witness :
  ∃ sys',
    run restart_after_timeout (mkSystem (init 0) Idle) = Some sys' ∧
    ∃ t', tasks (state sys') !! "news_aggregation" = Some t' ∧
      name t' = "News Aggregation" ∧ script t' = "fetch_news.py" ∧
      interval t' = 1800 ∧ process t' = None.
Proof.
  destruct (run restart_after_timeout (mkSystem (init 0) Idle))
    as [sys'|] eqn:Hrun; [|by vm_compute in Hrun].
  exists sys'. split; [done|].
  destruct (job_descriptions_fixed _ _ _ Hrun "news_aggregation") as [_ Hjob].
  apply (Hjob (new_task "News Aggregation" "fetch_news.py" 1800)).
  vm_compute. reflexivity.
Defined.

Lemma threads_kept_refl s : threads_kept s s.
Proof. intros h w Hw. by exists w. Qed.

Lemma threads_kept_trans s1 s2 s3 :
  threads_kept s1 s2 → threads_kept s2 s3 → threads_kept s1 s3.
Proof.
  intros H12 H23 h w Hw.
  destruct (H12 h w Hw) as (w2 & Hw2 & Ht2 & Hpc2).
  destruct (H23 h w2 Hw2) as (w3 & Hw3 & Ht3 & Hpc3).
  exists w3. split; [done|]. split; [congruence|]. auto.
Qed.

Lemma transition_threads_kept a ev b :
  transition a ev b → threads_kept (state a) (state b).
Proof.
  intros Htr.
  destruct Htr as [s task_id now spawn Ht|s task_id now spawn t Ht Hs
    |s task_id now t Ht Hs|s task_id now msg t Ht Hs|s task_id Ht
    |s task_id t Ht|s task_id t Ht Hw|s task_id t Ht Hw|s task_id now Ht
    |s task_id now t Ht|s task_id orig o t Ht|s c h a w t t' pc' Hh Ht He];
    intros h' w' Hw'; simpl in *; try (by exists w').
  - exists w'. split; [|done]. by apply lookup_app_l_Some.
  - rewrite list_lookup_alter. case_decide as Hd.
    + subst h'. rewrite Hw'. simpl. eexists. split; [done|]. split; [done|].
      intros Hpc. assert (w' = w) as -> by congruence.
      by destruct (worker_effect_live _ _ _ _ _ He).
    + by exists w'.
Qed.

(** X17: a thread is never taken for another task, and a thread that
    has left [task_worker] never runs again, whatever is called
    afterwards: starting the task again creates a new thread, it does
    not revive the old one. *)
Theorem exited_thread_stays_exited tr sys sys' h w :
  run tr sys = Some sys' →
  threads (state sys) !! h = Some w →
  ∃ w', threads (state sys') !! h = Some w' ∧ w_task w' = w_task w ∧
    (w_pc w = Exited →
       w_pc w' = Exited ∧ ∀ a, step (Work h a) sys' = None).
Proof.
  intros Hrun Hw.
  assert (threads_kept (state sys) (state sys')) as Hkept.
  { apply (run_transitions tr sys sys'
             (λ b, threads_kept (state sys) (state b)) (λ _, True));
      [|by apply Forall_true|done|apply threads_kept_refl].
    intros ev a b _ Htr Ha.
    eapply threads_kept_trans; [exact Ha|by eapply transition_threads_kept]. }
  destruct (Hkept h w Hw) as (w' & Hw' & Htask & Hpc).
  exists w'. split; [done|]. split; [done|].
  intros Hex. split; [auto|]. intros a.
  destruct (step (Work h a) sys') as [sys2|] eqn:Hstep; [|done].
  apply step_transition in Hstep. inversion Hstep as
    [| | | | | | | | | | |s c h0 a0 w0 t t' pc' Hh Ht He]; subst.
  simpl in Hw'. assert (w0 = w') as -> by congruence.
  destruct (worker_effect_live _ _ _ _ _ He). auto.
Qed.

Lemma exited_thread_stays_exited_witness :
  ∃ sys1 sys' w',
    run (news_in_flight ++ [CallStop "news_aggregation"]
         ++ script_ends_in_time) (mkSystem (init 0) Idle) = Some sys1 ∧
    run [JoinReturns; CallStart "news_aggregation" 10 None] sys1
      = Some sys' ∧
    threads (state sys') !! 0%nat = Some w' ∧
    w_task w' = "news_aggregation" ∧ w_pc w' = Exited ∧
    ∀ a, step (Work 0 a) sys' = None.
Proof.
  destruct (run (news_in_flight ++ [CallStop "news_aggregation"]
                 ++ script_ends_in_time) (mkSystem (init 0) Idle))
    as [sys1|] eqn:Hrun1; [|by vm_compute in Hrun1].
  destruct (run [JoinReturns; CallStart "news_aggregation" 10 None] sys1)
    as [sys'|] eqn:Hrun; [|vm_compute in Hrun1; injection Hrun1 as <-;
                            by vm_compute in Hrun].
  assert (threads (state sys1) !! 0%nat
          = Some (mkWorker "news_aggregation" Exited)) as Hw.
  { vm_compute in Hrun1. by injection Hrun1 as <-. }
  destruct (exited_thread_stays_exited _ _ _ _ _ Hrun Hw)
    as (w' & Hw' & Htask & Hpc).
  exists sys1, sys', w'. split; [done|]. split; [done|]. split; [done|].
  split; [done|]. by apply Hpc.
Defined.

(** X18: from a controller as [__init__] leaves it, after any sequence
    of calls and of steps of worker threads, joins that time out and
    crashes included, every thread handle found in the table is the
    handle of a thread that was started for that very task. *)
Theorem handles_belong_to_their_task s0 tr sys task_id t h :
  fresh s0 → run tr (mkSystem s0 Idle) = Some sys →
  tasks (state sys) !! task_id = Some t → thread t = Some h →
  ∃ w, threads (state sys) !! h = Some w ∧ w_task w = task_id.
Proof.
  intros Hfresh Hrun Ht Hh.
  assert (handles_owned (state sys)) as Hown.
  { apply (run_transitions tr (mkSystem s0 Idle) sys
             (λ b, handles_owned (state b)) (λ _, True));
      [|by apply Forall_true|done|by apply fresh_handles_owned].
    intros ev a b _ Htr. by apply (handles_owned_step ev). }
  by apply (Hown task_id t h).
Qed.

Lemma handles_belong_to_their_task_witness :
  ∃ w, threads (started "news_aggregation") !! 0%nat = Some w ∧
       w_task w = "news_aggregation".
Proof.
  apply (handles_belong_to_their_task (init 0)
           [CallStart "news_aggregation" 5 None]
           (mkSystem (started "news_aggregation") Idle) "news_aggregation"
           (set_thread (Some 0%nat)
              (set_next_run (Some 1805)
                 (set_status running
                    (new_task "News Aggregation" "fetch_news.py" 1800))))
           0%nat).
  - apply fresh_init.
  - vm_compute. reflexivity.
  - vm_compute. reflexivity.
  - reflexivity.
Defined.

(** ** How a worker thread ends *)

Lemma worker_step_complete h a s w t t' pc' :
  threads s !! h = Some w → tasks s !! w_task w = Some t →
  worker_effect t (w_pc w) a t' pc' →
  worker_step h a s = Some (set_pc h pc' (put (w_task w) t' s)).
Proof.
  intros Hw Ht He. unfold worker_step. rewrite Hw. simpl. rewrite Ht. simpl.
  destruct w as [task_id pc]. simpl in *.
  destruct He.
  - by rewrite (put_same _ _ _ Ht).
  - unfold exec. by rewrite (run_script_mark_known _ _ _ Ht).
  - unfold exec. by rewrite (record_known _ _ _ Ht).
  - unfold exec. rewrite (run_script_finally_known _ _ _ Ht). simpl.
    rewrite lookup_insert_eq. simpl.
    by destruct (decide (status t = running)).
  - by rewrite (put_same _ _ _ Ht).
  - by rewrite (put_same _ _ _ Ht).
  - unfold exec. rewrite (run_script_finally_known _ _ _ Ht). simpl.
    rewrite (task_worker_except_known _ _ _ (lookup_put _ _ _)). simpl.
    by rewrite put_put.
Qed.

Lemma set_pc_set_pc h pc1 pc2 s : set_pc h pc2 (set_pc h pc1 s) = set_pc h pc2 s.
Proof.
  unfold set_pc, set_threads. simpl. f_equal.
  by rewrite list_alter_alter_eq.
Qed.

Lemma put_set_pc task_id t h pc s :
  put task_id t (set_pc h pc s) = set_pc h pc (put task_id t s).
Proof. done. Qed.

Lemma lookup_set_pc h pc s w :
  threads s !! h = Some w →
  threads (set_pc h pc s) !! h = Some (mkWorker (w_task w) pc).
Proof.
  intros Hw. simpl. rewrite list_lookup_alter, decide_True by done.
  by rewrite Hw.
Qed.

Lemma run_tick_test h n s c task_id t :
  threads s !! h = Some (mkWorker task_id (Sleeping n)) →
  tasks s !! task_id = Some t → status t ≠ running →
  run [Work h Tick; Work h LoopTest] (mkSystem s c)
  = Some (mkSystem (set_pc h Exited s) c).
Proof.
  intros Hw Ht Hs.
  assert (worker_step h Tick s = Some (set_pc h AtLoop s)) as H1.
  { destruct n as [|n].
    - rewrite (worker_step_complete h Tick s _ t t AtLoop Hw Ht);
        [|constructor].
      simpl. by rewrite (put_same _ _ _ Ht).
    - rewrite (worker_step_complete h Tick s _ t t AtLoop Hw Ht).
      + simpl. by rewrite (put_same _ _ _ Ht).
      + simpl. pose proof (effect_tick t n) as He.
        by rewrite decide_False in He. }
  assert (worker_step h LoopTest (set_pc h AtLoop s)
          = Some (set_pc h Exited s)) as H2.
  { rewrite (worker_step_complete h LoopTest _ _ t t Exited
               (lookup_set_pc _ _ _ _ Hw) Ht).
    - simpl. rewrite put_set_pc, set_pc_set_pc. by rewrite (put_same _ _ _ Ht).
    - simpl. pose proof (effect_test t) as He.
      by rewrite decide_False in He. }
  unfold run, step. simpl. rewrite H1. simpl. rewrite H2. simpl.
  by destruct c.
Qed.

(** X19: a worker thread in its sleeping loop whose task is not
    running any more (it was stopped, or another thread left it in
    [error]) can only go on with the check at line 134; after that
    check and the test of the [while] loop it has left [task_worker]
    without running the script again, and it has written nothing: the
    table is as it was. *)
Theorem sleeping_worker_leaves h n s c task_id t :
  threads s !! h = Some (mkWorker task_id (Sleeping n)) →
  tasks s !! task_id = Some t → status t ≠ running →
  (∀ a, is_Some (step (Work h a) (mkSystem s c)) → a = Tick) ∧
  ∃ sys',
    run [Work h Tick; Work h LoopTest] (mkSystem s c) = Some sys' ∧
    tasks (state sys') = tasks s ∧ caller sys' = c ∧
    threads (state sys') !! h = Some (mkWorker task_id Exited) ∧
    ∀ h', h' ≠ h → threads (state sys') !! h' = threads s !! h'.
Proof.
  intros Hw Ht Hs. split.
  - intros a [sys' Hstep]. apply step_transition in Hstep.
    inversion Hstep as [| | | | | | | | | | |s1 c1 h0 a0 w0 t0 t' pc' Hh Ht0 He];
      subst.
    assert (w0 = mkWorker task_id (Sleeping n)) as -> by congruence.
    simpl in He. by inversion He.
  - eexists. split; [by apply (run_tick_test h n s c task_id t)|].
    split; [done|]. split; [done|].
    split; [exact (lookup_set_pc _ _ _ _ Hw)|].
    intros h' Hne. simpl. by rewrite list_lookup_alter, decide_False.
Qed.

Lemma sleeping_worker_leaves_witness :
  ∃ sys',
    run [Work 0 Tick; Work 0 LoopTest]
      (mkSystem (set_threads [mkWorker "price" (Sleeping 1)] price_only) Idle)
    = Some sys' ∧
    tasks (state sys') = tasks price_only ∧
    threads (state sys') !! 0%nat = Some (mkWorker "price" Exited).
Proof.
  destruct (sleeping_worker_leaves 0 1
              (set_threads [mkWorker "price" (Sleeping 1)] price_only) Idle
              "price" (new_task "Price" "price.py" 2))
    as [_ (sys' & Hrun & Htasks & _ & Hth & _)].
  - reflexivity.
  - vm_compute. reflexivity.
  - discriminate.
  - exists sys'. exact (conj Hrun (conj Htasks Hth)).
Defined.

(** X20: a worker thread whose task stopped being running while its
    script was executing still records the outcome of the script when
    it ends, sets the status to [stopped] in its [finally] block (also
    if the status was [error]) and [next_run] to one interval later,
    and then leaves [task_worker] at the first check of its sleeping
    loop: it does not run the script again. *)
Theorem worker_winds_down_after_stop h o now s c task_id t :
  threads s !! h = Some (mkWorker task_id InFlight) →
  tasks s !! task_id = Some t → status t ≠ running →
  ∃ sys',
    run (worker_winds_down h o now) (mkSystem s c) = Some sys' ∧
    caller sys' = c ∧
    tasks (state sys')
      = <[task_id := set_next_run (Some (now + interval t))
                       (set_status stopped (recorded t o))]> (tasks s) ∧
    threads (state sys') !! h = Some (mkWorker task_id Exited) ∧
    ∀ h', h' ≠ h → threads (state sys') !! h' = threads s !! h'.
Proof.
  intros Hw Ht Hs.
  set (t1 := recorded t o).
  set (t2 := set_next_run (Some (now + interval t)) (set_status stopped t1)).
  assert (status t1 = status t ∧ interval t1 = interval t) as [Hs1 Hi1].
  { by destruct (recorded_frame t o) as (_ & _ & ? & ? & _). }
  assert (status t2 ≠ running) as Hs2 by done.
  assert (run (worker_winds_down h o now) (mkSystem s c)
          = Some (mkSystem (set_pc h Exited (put task_id t2 s)) c)) as Hrun.
  { change (worker_winds_down h o now)
      with ([Work h (Finish o); Work h (Cleanup now)]
            ++ [Work h Tick; Work h LoopTest]).
    rewrite run_app.
    assert (run [Work h (Finish o); Work h (Cleanup now)] (mkSystem s c)
            = Some (mkSystem
                      (set_pc h (Sleeping (Z.to_nat (interval t)))
                         (put task_id t2 s)) c)) as ->.
    { unfold run, step. simpl.
      rewrite (worker_step_complete h (Finish o) s _ t t1 AtFinally Hw Ht)
        by constructor.
      simpl.
      assert (worker_step h (Cleanup now)
                (set_pc h AtFinally (put task_id t1 s))
              = Some (set_pc h (Sleeping (Z.to_nat (interval t)))
                        (put task_id t2 s))) as ->.
      { rewrite (worker_step_complete h (Cleanup now)
                   (set_pc h AtFinally (put task_id t1 s))
                   (mkWorker task_id AtFinally) t1
                   (set_next_run (Some (now + interval t1))
                      (if decide (status t1 = running) then t1
                       else set_status stopped t1))
                   (Sleeping (Z.to_nat (interval t1)))
                   (lookup_set_pc h AtFinally (put task_id t1 s) _ Hw)
                   (lookup_put task_id t1 s));
          [|constructor].
        simpl. rewrite put_set_pc, set_pc_set_pc, put_put.
        rewrite decide_False by congruence. by rewrite Hi1. }
      simpl. by destruct c. }
    rewrite <- (set_pc_set_pc h (Sleeping (Z.to_nat (interval t))) Exited
                  (put task_id t2 s)).
    exact (run_tick_test h (Z.to_nat (interval t))
             (set_pc h (Sleeping (Z.to_nat (interval t))) (put task_id t2 s))
             c task_id t2
             (lookup_set_pc h _ (put task_id t2 s) _ Hw)
             (lookup_put task_id t2 s) Hs2). }
  eexists. split; [exact Hrun|].
  split; [done|]. split; [done|].
  split; [exact (lookup_set_pc h _ (put task_id t2 s) _ Hw)|].
  intros h' Hne. simpl. by rewrite list_lookup_alter, decide_False.
Qed.

Lemma worker_winds_down_after_stop_witness :
  ∃ sys' t',
    run (worker_winds_down 0 exits_ok 5)
      (mkSystem (set_threads [mkWorker "price" InFlight] price_only)
         (InStop "price"))
    = Some sys' ∧
    tasks (state sys') !! "price" = Some t' ∧
    status t' = stopped ∧ next_run t' = Some 7 ∧ success_count t' = 1 ∧
    threads (state sys') !! 0%nat = Some (mkWorker "price" Exited).
Proof.
  destruct (worker_winds_down_after_stop 0 exits_ok 5
              (set_threads [mkWorker "price" InFlight] price_only)
              (InStop "price") "price" (new_task "Price" "price.py" 2))
    as (sys' & Hrun & _ & Htasks & Hth & _).
  - reflexivity.
  - vm_compute. reflexivity.
  - discriminate.
  - exists sys'. eexists. split; [exact Hrun|].
    split; [rewrite Htasks; apply lookup_insert_eq|].
    split; [reflexivity|]. split; [reflexivity|]. split; [reflexivity|].
    exact Hth.
Defined.
